(** * The crypto dashboard page (pages/index.js)

    A shallow embedding of the [Home] component: the state cells created by
    [useState], the asynchronous [fetchCryptos], the SWR [fetcher], the
    resolution [displayData = liveData || cryptos] and the rendering
    dispatch, followed by the properties of the refresh coordinator. *)

From Stdlib Require Import ZArith Floats String Ascii List Bool Lia Sorted.
From Stdlib Require Import DecimalString.
Import ListNotations.
Local Open Scope string_scope.
Set Warnings "-register-all,-inexact-float".

(** ** JavaScript values *)

Module JS.

(** The values that reach the component: JSON data, [undefined] and the
    error objects thrown by the runtime.  Numbers are IEEE 754 binary64. *)
Inductive value : Type :=
| Undefined
| Null
| Bool (b : bool)
| Num (x : float)
| Str (s : string)
| Arr (items : list value)
| Obj (fields : list (string * value)).

(** ToBoolean. *)
Definition truthy (v : value) : bool :=
  match v with
  | Undefined | Null => false
  | Bool b => b
  | Num x => negb (PrimFloat.is_zero x || PrimFloat.is_nan x)
  | Str s => negb (String.eqb s EmptyString)
  | Arr _ | Obj _ => true
  end.

(** [a || b] on already evaluated operands. *)
Definition or (a b : value) : value := if truthy a then a else b.

(** Completion of an evaluation: a normal result or a thrown value. *)
Inductive completion (A : Type) : Type :=
| Normal (a : A)
| Throw (e : value).
Arguments Normal {A} a.
Arguments Throw {A} e.

Definition TypeError (msg : string) : value :=
  Obj [("name", Str "TypeError"); ("message", Str msg)].

Fixpoint lookup (k : string) (fs : list (string * value)) : option value :=
  match fs with
  | [] => None
  | (k', v) :: rest => if String.eqb k k' then Some v else lookup k rest
  end.

(** The TypeError of reading property [k] of [undefined] or [null], and the
    one of destructuring them, worded as Chrome and Node word them. *)
Definition nullish_name (v : value) : string :=
  match v with
  | Null => "null"
  | _ => "undefined"
  end.

Definition read_error (v : value) (k : string) : value :=
  TypeError ("Cannot read properties of " ++ nullish_name v ++ " (reading '" ++ k ++ "')").

Definition destructure_error (v : value) (k : string) : value :=
  TypeError ("Cannot destructure property '" ++ k ++ "' of '(intermediate value)' as it is "
             ++ nullish_name v ++ ".").

(** Property read [v.k] for the names the page reads with a dot other than
    [length] and [map]: [data], [error], [message] and the record fields.
    Reading a property of [undefined] or [null] throws; an object yields the
    field or [undefined]; arrays, strings, booleans and numbers own none of
    these names. *)
Definition get (v : value) (k : string) : completion value :=
  match v with
  | Undefined | Null => Throw (read_error v k)
  | Obj fs => Normal (match lookup k fs with Some x => x | None => Undefined end)
  | Bool _ | Num _ | Str _ | Arr _ => Normal Undefined
  end.

(** The first binding [k] of a pattern [const { k, ... } = v]: the value
    must be coercible to an object before any property is read. *)
Definition destructure (v : value) (k : string) : completion value :=
  match v with
  | Undefined | Null => Throw (destructure_error v k)
  | _ => get v k
  end.

(** [!v.length].  The length of an array or of a string is a non-negative
    integer, falsy exactly when it is zero; an object yields its field
    [length], if it has one. *)
Definition not_length (v : value) : completion bool :=
  match v with
  | Undefined | Null => Throw (read_error v "length")
  | Arr l => Normal (Nat.eqb (List.length l) 0)
  | Str s => Normal (Nat.eqb (String.length s) 0)
  | Obj fs => Normal (negb (truthy (match lookup "length" fs with Some x => x | None => Undefined end)))
  | Bool _ | Num _ => Normal true
  end.

(** Sequencing of evaluations that may throw. *)
Definition and_then {A B} (c : completion A) (k : A -> completion B) : completion B :=
  match c with
  | Normal a => k a
  | Throw e => Throw e
  end.

(** [a || b] where [b] is evaluated only when [a] is falsy. *)
Definition or_else (a b : completion value) : completion value :=
  and_then a (fun x => if truthy x then Normal x else b).

(** A settled promise. *)
Inductive settled : Type :=
| Fulfilled (v : value)
| Rejected (reason : value).

End JS.

Import JS.

(** ** Component state and its environment *)

(** The query built by
    [supabase.from('crypto_prices').select('*').order('market_cap', { ascending: false }).limit(20)]. *)
Record Query : Type := {
  from : string;
  select : string;
  order : string;
  ascending : bool;
  limit : nat
}.

(** The three [useState] cells and the [data] of [useSWR] of the current
    instance of the page, and what lives outside the instance: the cache in
    which [useSWR] keeps the data of the feed's key, the channel
    subscription, the table requests in flight that the current instance has
    sent, those that instances unmounted since have left behind, and the
    console. *)
Record World : Type := {
  cryptos : value;
  loading : bool;
  error : value;
  liveData : value;
  cache : value;
  subscription : bool;
  mounted : bool;
  inflight : list Query;
  orphans : list Query;
  console : list (string * value)
}.

(** [useState([])], [useState(true)], [useState(null)]; [useSWR] has no data
    before its first successful fetch. *)
Definition initial : World :=
  {| cryptos := Arr []; loading := true; error := Null; liveData := Undefined;
     cache := Undefined;
     subscription := false; mounted := false; inflight := []; orphans := [];
     console := [] |}.

(** ** Statements with effects on the world *)

Definition M (A : Type) : Type := World -> completion A * World.

Definition ret {A} (a : A) : M A := fun w => (Normal a, w).
Definition throw {A} (e : value) : M A := fun w => (Throw e, w).
Definition lift {A} (c : completion A) : M A := fun w => (c, w).

Definition bind {A B} (m : M A) (k : A -> M B) : M B :=
  fun w =>
    match m w with
    | (Normal a, w') => k a w'
    | (Throw e, w') => (Throw e, w')
    end.

Notation "x <- m ;; k" := (bind m (fun x => k))
  (at level 61, m at next level, right associativity).
Notation "m ;;; k" := (bind m (fun _ => k))
  (at level 61, right associativity).

(** [try { body } catch (e) { handler }]. *)
Definition try_catch {A} (body : M A) (handler : value -> M A) : M A :=
  fun w =>
    match body w with
    | (Normal a, w') => (Normal a, w')
    | (Throw e, w') => handler e w'
    end.

(** [try { body } finally { fin }]: [fin] always runs; unless it throws
    itself, the completion of [body] is kept. *)
Definition try_finally {A} (body : M A) (fin : M unit) : M A :=
  fun w =>
    match body w with
    | (c, w') =>
        match fin w' with
        | (Normal _, w'') => (c, w'')
        | (Throw e, w'') => (Throw e, w'')
        end
    end.

(** The setters returned by [useState], called by the instance that is
    mounted. *)
Definition setCryptos (v : value) : M unit :=
  fun w => (Normal tt,
    {| cryptos := v; loading := loading w; error := error w; liveData := liveData w;
       cache := cache w;
       subscription := subscription w; mounted := mounted w;
       inflight := inflight w; orphans := orphans w;
       console := console w |}).

Definition setLoading (b : bool) : M unit :=
  fun w => (Normal tt,
    {| cryptos := cryptos w; loading := b; error := error w; liveData := liveData w;
       cache := cache w;
       subscription := subscription w; mounted := mounted w;
       inflight := inflight w; orphans := orphans w;
       console := console w |}).

Definition setError (v : value) : M unit :=
  fun w => (Normal tt,
    {| cryptos := cryptos w; loading := loading w; error := v; liveData := liveData w;
       cache := cache w;
       subscription := subscription w; mounted := mounted w;
       inflight := inflight w; orphans := orphans w;
       console := console w |}).

Definition console_write (label : string) (v : value) : M unit :=
  fun w => (Normal tt,
    {| cryptos := cryptos w; loading := loading w; error := error w; liveData := liveData w;
       cache := cache w;
       subscription := subscription w; mounted := mounted w;
       inflight := inflight w; orphans := orphans w;
       console := console w ++ [(label, v)] |}).

Definition send (q : Query) : M unit :=
  fun w => (Normal tt,
    {| cryptos := cryptos w; loading := loading w; error := error w; liveData := liveData w;
       cache := cache w;
       subscription := subscription w; mounted := mounted w;
       inflight := inflight w ++ [q]; orphans := orphans w;
       console := console w |}).

(** [await p] for a promise that settles as [o]. *)
Definition await (o : settled) : M value :=
  match o with
  | Fulfilled v => ret v
  | Rejected r => throw r
  end.

(** ** fetchCryptos *)

Definition fetchCryptos_query : Query :=
  {| from := "crypto_prices"; select := "*"; order := "market_cap";
     ascending := false; limit := 20 |}.

(** The part of [fetchCryptos] that runs at the call: [setLoading(true)] and
    the request; the function is then suspended at its [await]. *)
Definition fetchCryptos_call : M unit :=
  setLoading true ;;; send fetchCryptos_query.

(** The part that runs once the awaited request has settled as [o]: the
    rest of the [try] block, the [catch] and the [finally]. *)
Definition fetchCryptos_resume (o : settled) : M unit :=
  try_finally
    (try_catch
       (r <- await o ;;
        data <- lift (destructure r "data") ;;
        error <- lift (get r "error") ;;
        if truthy error then throw error
        else setCryptos (JS.or data (Arr [])))
       (fun error =>
          console_write "Error fetching cryptos:" error ;;;
          message <- lift (get error "message") ;;
          setError message))
    (setLoading false).

(** ** The live feed *)

(** What [fetch(url)] settles to: a rejection (the network failed) or a
    response, of which the page reads nothing but [json()], the result of
    parsing the body. *)
Record Response : Type := {
  status : Z;
  json : completion value
}.

Inductive fetched : Type :=
| NetworkError (reason : value)
| Responded (res : Response).

(** [const fetcher = async (url) => { const res = await fetch(url); return res.json() }] *)
Definition fetcher (f : fetched) : completion value :=
  match f with
  | NetworkError reason => Throw reason
  | Responded res => json res
  end.

(** Modelled from the spec: [useSWR] is the polling library the page imports.
    On a successful poll its [data] is replaced with the fetcher's result; on
    a failed poll [data] is left at its previous value. *)
Definition useSWR_data (previous : value) (c : completion value) : value :=
  match c with
  | Normal v => v
  | Throw _ => previous
  end.

(** [const displayData = liveData || cryptos] *)
Definition displayData (w : World) : value := JS.or (liveData w) (cryptos w).

(** ** Events *)

(** The filter given to [.on('postgres_changes', ...)]. *)
Record Filter : Type := {
  event : string;
  schema : string;
  table : string
}.

Definition crypto_changes : Filter :=
  {| event := "*"; schema := "public"; table := "crypto_prices" |}.

Inductive eventType : Type := INSERT | UPDATE | DELETE.

Definition eventType_name (t : eventType) : string :=
  match t with
  | INSERT => "INSERT"
  | UPDATE => "UPDATE"
  | DELETE => "DELETE"
  end.

(** A row change in the database, with the payload the channel hands to the
    callback. *)
Record Change : Type := {
  change_type : eventType;
  change_schema : string;
  change_table : string;
  payload : value
}.

(** Modelled from the spec: the table service delivers to a subscription the
    insert, update and delete events of the watched table; the mask ["*"]
    selects every event type. *)
Definition delivers (f : Filter) (c : Change) : bool :=
  (String.eqb (event f) "*" || String.eqb (event f) (eventType_name (change_type c)))
  && String.eqb (schema f) (change_schema c)
  && String.eqb (table f) (change_table c).

(** [(payload) => { console.log('Change received!', payload); fetchCryptos() }] *)
Definition on_change (p : value) : M unit :=
  console_write "Change received!" p ;;; fetchCryptos_call.

Definition set_subscription (b : bool) : M unit :=
  fun w => (Normal tt,
    {| cryptos := cryptos w; loading := loading w; error := error w; liveData := liveData w;
       cache := cache w;
       subscription := b; mounted := mounted w;
       inflight := inflight w; orphans := orphans w;
       console := console w |}).

Definition set_liveData (v : value) : M unit :=
  fun w => (Normal tt,
    {| cryptos := cryptos w; loading := loading w; error := error w; liveData := v;
       cache := cache w;
       subscription := subscription w; mounted := mounted w;
       inflight := inflight w; orphans := orphans w;
       console := console w |}).

Definition take_inflight (rest : list Query) : M unit :=
  fun w => (Normal tt,
    {| cryptos := cryptos w; loading := loading w; error := error w; liveData := liveData w;
       cache := cache w;
       subscription := subscription w; mounted := mounted w;
       inflight := rest; orphans := orphans w;
       console := console w |}).

Definition set_cache (v : value) : M unit :=
  fun w => (Normal tt,
    {| cryptos := cryptos w; loading := loading w; error := error w; liveData := liveData w;
       cache := v;
       subscription := subscription w; mounted := mounted w;
       inflight := inflight w; orphans := orphans w;
       console := console w |}).

Definition take_orphan (rest : list Query) : M unit :=
  fun w => (Normal tt,
    {| cryptos := cryptos w; loading := loading w; error := error w; liveData := liveData w;
       cache := cache w;
       subscription := subscription w; mounted := mounted w;
       inflight := inflight w; orphans := rest;
       console := console w |}).

(** A new instance of the page: the cells start from the arguments of
    [useState], [useSWR] returns what its cache holds for the key, and the
    requests an earlier instance may have left in flight are no longer
    answered to anyone. *)
Definition new_instance : M unit :=
  fun w => (Normal tt,
    {| cryptos := Arr []; loading := true; error := Null; liveData := cache w;
       cache := cache w;
       subscription := subscription w; mounted := true;
       inflight := []; orphans := orphans w ++ inflight w;
       console := console w |}).

(** The instance is unmounted: its requests in flight are left behind. *)
Definition abandon : M unit :=
  fun w => (Normal tt,
    {| cryptos := cryptos w; loading := loading w; error := error w; liveData := liveData w;
       cache := cache w;
       subscription := subscription w; mounted := false;
       inflight := []; orphans := orphans w ++ inflight w;
       console := console w |}).

(** React drops the calls that an unmounted instance makes to its setters:
    of what [m] does, the writes of the three state cells are lost and the
    rest (the console) stays. *)
Definition dropped {A} (m : M A) : M A :=
  fun w =>
    match m w with
    | (c, w') =>
        (c, {| cryptos := cryptos w; loading := loading w; error := error w;
               liveData := liveData w'; cache := cache w';
               subscription := subscription w'; mounted := mounted w';
               inflight := inflight w'; orphans := orphans w';
               console := console w' |})
    end.

(** The body of the [useEffect]: [fetchCryptos()], then the subscription. *)
Definition effect : M unit :=
  fetchCryptos_call ;;; set_subscription true.

(** The function the effect returns: [subscription.unsubscribe()]. *)
Definition cleanup : M unit :=
  set_subscription false.

(** [TableSettled] is the answer to a request of the mounted instance (the
    requests in [inflight] are its own: a mount and an unmount move what is
    in flight to [orphans]), [LateSettled] the answer to a request whose
    instance has been unmounted since. *)
Inductive Event : Type :=
| Mount
| Changed (c : Change)
| TableSettled (o : settled)
| FeedSettled (f : fetched)
| Unmount
| LateSettled (o : settled).

(** One turn of the event loop.  A handler that throws leaves an unhandled
    rejection behind and the world as it was when it threw.  An answer that
    comes late still runs the rest of [fetchCryptos], with its setter calls
    dropped.  A response of the feed is stored in the cache of [useSWR]
    whether or not the page is mounted, and reaches [liveData] only while it
    is: the instance mounted next finds it in the cache. *)
Definition step (e : Event) (w : World) : World :=
  match e with
  | Mount => snd ((new_instance ;;; effect) w)
  | Changed c =>
      if subscription w && delivers crypto_changes c
      then snd (on_change (payload c) w)
      else w
  | TableSettled o =>
      match inflight w with
      | [] => w
      | _ :: rest => snd ((take_inflight rest ;;; fetchCryptos_resume o) w)
      end
  | FeedSettled f =>
      snd ((set_cache (useSWR_data (cache w) (fetcher f)) ;;;
            if mounted w
            then set_liveData (useSWR_data (liveData w) (fetcher f))
            else ret tt) w)
  | Unmount => snd ((cleanup ;;; abandon) w)
  | LateSettled o =>
      match orphans w with
      | [] => w
      | _ :: rest => snd ((take_orphan rest ;;; dropped (fetchCryptos_resume o)) w)
      end
  end.

Fixpoint run (es : list Event) (w : World) : World :=
  match es with
  | [] => w
  | e :: rest => run rest (step e w)
  end.

(** ** Outcomes of a table request *)

(** The request succeeded with [data]: it was fulfilled with a result whose
    [error] is falsy. *)
Definition succeeded (o : settled) (data : value) : Prop :=
  exists r e, o = Fulfilled r /\ get r "data" = Normal data
              /\ get r "error" = Normal e /\ truthy e = false.

(** The value thrown inside the [try] block, if any: the rejection reason,
    the error of destructuring a result that is no object, or a truthy
    [error] reported by the table service. *)
Definition thrown_in_try (o : settled) : option value :=
  match o with
  | Rejected reason => Some reason
  | Fulfilled r =>
      match destructure r "data", get r "error" with
      | Throw e, _ => Some e
      | Normal _, Throw e => Some e
      | Normal _, Normal e => if truthy e then Some e else None
      end
  end.

Definition with_cryptos (v : value) (w : World) : World := snd (setCryptos v w).
Definition with_loading (b : bool) (w : World) : World := snd (setLoading b w).
Definition with_error (v : value) (w : World) : World := snd (setError v w).
Definition logged (label : string) (v : value) (w : World) : World :=
  snd (console_write label v w).
Definition with_liveData (v : value) (w : World) : World := snd (set_liveData v w).

(** ** Numbers of the host *)

(** The operations of the JavaScript host that the page calls and that are
    not defined here: Number::toString (used by [toFixed] outside its own
    range), the conversion of strings and of objects to numbers, and the
    formatter of [Intl.NumberFormat]. *)
Record NumberFormatOptions : Type := {
  style : option string;
  currency : option string;
  minimumFractionDigits : option nat;
  maximumFractionDigits : option nat;
  notation : option string;
  compactDisplay : option string
}.

Class Host : Type := {
  NumberToString : float -> string;
  StringToNumber : string -> float;
  ObjectToNumber : value -> float;
  NumberFormat_format : string -> NumberFormatOptions -> value -> string
}.

(** ToNumber. *)
Definition ToNumber `{Host} (v : value) : float :=
  match v with
  | Undefined => PrimFloat.nan
  | Null => PrimFloat.zero
  | Bool b => if b then PrimFloat.one else PrimFloat.zero
  | Num x => x
  | Str s => StringToNumber s
  | Arr _ | Obj _ => ObjectToNumber v
  end.

(** [v >= 0]: false when [v] converts to NaN. *)
Definition ge_zero `{Host} (v : value) : bool :=
  PrimFloat.leb PrimFloat.zero (ToNumber v).

(** [Math.abs(v)]. *)
Definition Math_abs `{Host} (v : value) : float := PrimFloat.abs (ToNumber v).

(** The integer [n] for which [n / 10^f - m * 2^e] is as close to zero as
    possible, the larger one if there are two. *)
Definition nearest (m : positive) (e : Z) (f : nat) : Z :=
  if (0 <=? e)%Z
  then (Z.pos m * 2 ^ e * 10 ^ Z.of_nat f)%Z
  else ((2 * (Z.pos m * 10 ^ Z.of_nat f) + 2 ^ (- e)) / (2 * 2 ^ (- e)))%Z.

(** [m * 2^e >= 10^21]. *)
Definition ge_1e21 (m : positive) (e : Z) : bool :=
  if (0 <=? e)%Z
  then (10 ^ 21 <=? Z.pos m * 2 ^ e)%Z
  else (10 ^ 21 * 2 ^ (- e) <=? Z.pos m)%Z.

Definition digits (n : Z) : string :=
  NilZero.string_of_uint (N.to_uint (Z.to_N n)).

Fixpoint zeros (k : nat) : string :=
  match k with
  | O => EmptyString
  | S k' => String "0" (zeros k')
  end.

(** The decimal digits of [n] with a point before the last [f] of them,
    padded with zeros on the left up to [f + 1] digits. *)
Definition fixed_point (n : Z) (f : nat) : string :=
  let m := digits n in
  match f with
  | O => m
  | _ =>
      let k := String.length m in
      let m := if Nat.leb k f then zeros (f + 1 - k) ++ m else m in
      let k := String.length m in
      String.substring 0 (k - f) m ++ "." ++ String.substring (k - f) f m
  end.

(** [Number.prototype.toFixed]. *)
Definition toFixed `{Host} (x : float) (f : nat) : string :=
  match Prim2SF x with
  | S754_nan | S754_infinity _ => NumberToString x
  | S754_zero _ => fixed_point 0 f
  | S754_finite s m e =>
      (if s then "-" else EmptyString)
      ++ (if ge_1e21 m e then NumberToString (PrimFloat.abs x)
          else fixed_point (nearest m e f) f)
  end.

(** ** Rendering *)

(** [formatPrice] and [formatNumber]. *)
Definition formatPrice `{Host} (price : value) : string :=
  NumberFormat_format "en-US"
    {| style := Some "currency"; currency := Some "USD";
       minimumFractionDigits := Some 2; maximumFractionDigits := Some 2;
       notation := None; compactDisplay := None |} price.

Definition formatNumber `{Host} (num : value) : string :=
  NumberFormat_format "en-US"
    {| style := None; currency := None;
       minimumFractionDigits := None; maximumFractionDigits := None;
       notation := Some "compact"; compactDisplay := Some "short" |} num.

(** [crypto.current_price || crypto.price || 0] *)
Definition price (crypto : value) : completion value :=
  or_else (get crypto "current_price") (or_else (get crypto "price") (Normal (Num 0))).

(** [crypto.price_change_percentage_24h || crypto.change_24h || 0] *)
Definition change (crypto : value) : completion value :=
  or_else (get crypto "price_change_percentage_24h")
          (or_else (get crypto "change_24h") (Normal (Num 0))).

(** [crypto.market_cap || 0] *)
Definition marketCap (crypto : value) : completion value :=
  or_else (get crypto "market_cap") (Normal (Num 0)).

(** [change >= 0] *)
Definition isPositive `{Host} (change : value) : bool := ge_zero change.

(** The badge of the 24h change: its class and its text
    [{isPositive ? '↑' : '↓'} {Math.abs(change).toFixed(2)}%]. *)
Record Badge : Type := {
  arrow : string;
  className : string;
  text : string
}.

Definition badge `{Host} (change : value) : Badge :=
  let arrow := if isPositive change then "↑" else "↓" in
  {| arrow := arrow;
     className :=
       "inline-flex items-center px-2.5 py-0.5 rounded-full text-xs font-medium "
       ++ (if isPositive change then "bg-green-500/20 text-green-400"
           else "bg-red-500/20 text-red-400");
     text := arrow ++ " " ++ toFixed (Math_abs change) 2 ++ "%" |}.

(** [crypto.image && <img src={crypto.image} alt={crypto.name} />] *)
Inductive Image : Type :=
| Img (src alt : value)
| NoImg (v : value).

Record Row : Type := {
  key : value;
  rank : nat;
  image : Image;
  name : value;
  symbol : value;
  price_cell : string;
  change_cell : Badge;
  marketCap_cell : string
}.

(** The callback of [displayData.map]. *)
Definition row `{Host} (crypto : value) (index : nat) : completion Row :=
  and_then (price crypto) (fun price =>
  and_then (change crypto) (fun change =>
  and_then (marketCap crypto) (fun marketCap =>
  and_then (or_else (get crypto "id") (Normal (Num (PrimFloat.of_uint63 (Uint63.of_Z (Z.of_nat index)))))) (fun key =>
  and_then (get crypto "image") (fun image =>
  and_then (get crypto "name") (fun alt =>
  and_then (or_else (get crypto "name") (Normal (Str "Unknown"))) (fun name =>
  and_then (or_else (get crypto "symbol") (Normal (Str "-"))) (fun symbol =>
  Normal
    {| key := key;
       rank := index + 1;
       image := if truthy image then Img image alt else NoImg image;
       name := name;
       symbol := symbol;
       price_cell := formatPrice price;
       change_cell := badge change;
       marketCap_cell := "$" ++ formatNumber marketCap |})))))))).

Fixpoint rows_from `{Host} (index : nat) (items : list value) : completion (list Row) :=
  match items with
  | [] => Normal []
  | crypto :: rest =>
      and_then (row crypto index) (fun r =>
      and_then (rows_from (S index) rest) (fun rs => Normal (r :: rs)))
  end.

(** [displayData.map(...)]: only an array has [map]. *)
Definition map_rows `{Host} (displayData : value) : completion (list Row) :=
  match displayData with
  | Arr items => rows_from 0 items
  | _ => Throw (TypeError "displayData.map is not a function")
  end.

Inductive Body : Type :=
| Spinner
| DataTable (rows : list Row).

Inductive View : Type :=
| ErrorPanel (message : value)
| Dashboard (body : Body).

(** What [Home] returns for the current state; in [loading && !displayData.length]
    the length is read only when [loading] is true. *)
Definition Home `{Host} (w : World) : completion View :=
  if truthy (error w) then Normal (ErrorPanel (error w))
  else
    let displayData := displayData w in
    and_then (if loading w then not_length displayData else Normal false)
      (fun spinner =>
         if spinner then Normal (Dashboard Spinner)
         else and_then (map_rows displayData) (fun rows =>
              Normal (Dashboard (DataTable rows)))).

(** ** Sample data *)

Definition bitcoin_row : value :=
  Obj [("id", Num 1%float); ("name", Str "Bitcoin"); ("symbol", Str "btc");
       ("price", Num 64000%float); ("market_cap", Num 1200000000000%float);
       ("change_24h", Num (-1.5)%float)].

Definition ether_row : value :=
  Obj [("id", Num 2%float); ("name", Str "Ethereum"); ("symbol", Str "eth");
       ("price", Num 3000%float); ("market_cap", Num 360000000000%float);
       ("change_24h", Num 2.25%float)].

(** A table response with two rows, and one with the service's error. *)
Definition two_rows : settled :=
  Fulfilled (Obj [("data", Arr [bitcoin_row; ether_row]); ("error", Null)]).

Definition no_rows : settled :=
  Fulfilled (Obj [("data", Null); ("error", Null)]).

Definition table_missing : settled :=
  Fulfilled (Obj [("data", Null);
                  ("error", Obj [("message", Str "relation does not exist")])]).

Definition a_change : Change :=
  {| change_type := UPDATE; change_schema := "public";
     change_table := "crypto_prices"; payload := Obj [("eventType", Str "UPDATE")] |}.

(** Feed responses: a page of records, the body [null], and the error object
    the feed answers with when its rate limit is exceeded. *)
Definition feed_page : Response :=
  {| status := 200;
     json := Normal (Arr [Obj [("id", Str "bitcoin"); ("name", Str "Bitcoin");
                               ("current_price", Num 64000%float);
                               ("price_change_percentage_24h", Num (-3.456)%float);
                               ("market_cap", Num 1200000000000%float)]]) |}.

Definition null_body : Response :=
  {| status := 200; json := Normal Null |}.

Definition rate_limited : Response :=
  {| status := 429;
     json := Normal (Obj [("status", Obj [("error_code", Num 429%float);
                                           ("error_message", Str "Rate limit exceeded")])]) |}.

Definition the_table_rows : World :=
  run [Mount; TableSettled two_rows] initial.

(** ** Vocabulary of the properties *)

(** A field that is missing or [null]. *)
Definition absent (v : value) : Prop := v = Undefined \/ v = Null.

(** A field of a price record as the two sources deliver it: a number, or
    absent. *)
Definition number_or_absent (v : value) : Prop := absent v \/ exists x, v = Num x.

Definition field (k : string) (fs : list (string * value)) : value :=
  match lookup k fs with
  | Some x => x
  | None => Undefined
  end.

Definition nullish (v : value) : bool :=
  match v with
  | Undefined | Null => true
  | _ => false
  end.

(** [n] is the integer nearest to [m * 2^e * 10^f], the larger of the two
    when [m * 2^e * 10^f] lies halfway. *)
Definition is_nearest (n : Z) (m : positive) (e : Z) (f : nat) : Prop :=
  if (0 <=? e)%Z
  then n = (Z.pos m * 2 ^ e * 10 ^ Z.of_nat f)%Z
  else (2 * (Z.pos m * 10 ^ Z.of_nat f) - 2 ^ (- e) < 2 * n * 2 ^ (- e)
        <= 2 * (Z.pos m * 10 ^ Z.of_nat f) + 2 ^ (- e))%Z.

Definition badge_base : string :=
  "inline-flex items-center px-2.5 py-0.5 rounded-full text-xs font-medium ".

(** A host whose operations are never consulted on the sample inputs. *)
Definition sample_host : Host :=
  {| NumberToString := fun _ => EmptyString;
     StringToNumber := fun _ => PrimFloat.nan;
     ObjectToNumber := fun _ => PrimFloat.nan;
     NumberFormat_format := fun _ _ _ => EmptyString |}.

(** ** The table service *)

(** Modelled from the spec: the table service returns the rows in the order
    the query asks for.  Column values are compared as numbers; as in the
    database behind the service, [null] sorts before every number in
    descending order and after every number in ascending order. *)
Definition column_geb (x y : value) : bool :=
  match x, y with
  | Null, _ => true
  | Num a, Num b => PrimFloat.leb b a
  | _, _ => false
  end.

Definition in_order (q : Query) (a b : value) : Prop :=
  match get a (order q), get b (order q) with
  | Normal x, Normal y =>
      (if ascending q then column_geb y x else column_geb x y) = true
  | _, _ => False
  end.

(** The service honours query [q] in its answer [o]: a successful answer
    carries no rows at all, or at most [limit q] rows in the order of [q]. *)
Definition honours (q : Query) (o : settled) : Prop :=
  forall data, succeeded o data ->
    data = Null
    \/ exists rows, data = Arr rows
                    /\ List.length rows <= limit q
                    /\ Sorted (in_order q) rows.

(** [cryptos] holds at most 20 rows, by descending [market_cap]. *)
Definition table_ordered (w : World) : Prop :=
  exists rows, cryptos w = Arr rows
               /\ List.length rows <= 20
               /\ Sorted (in_order fetchCryptos_query) rows.

(** An event the environment can produce in world [w]: a table request
    settles only with an answer that honours the query that was sent. *)
Definition admissible (w : World) (e : Event) : Prop :=
  match e with
  | TableSettled o =>
      match inflight w with
      | [] => True
      | q :: _ => honours q o
      end
  | _ => True
  end.

(** Every request in flight is the one [fetchCryptos] builds. *)
Definition only_top20_inflight (w : World) : Prop :=
  Forall (fun q => q = fetchCryptos_query) (inflight w).

Inductive reachable : World -> Prop :=
| reachable_initial : reachable initial
| reachable_step (w : World) (e : Event) :
    reachable w -> admissible w e -> reachable (step e w).

(** ** Vocabulary of the further properties *)

(** An event under which the mounted instance stays mounted and that is not
    a failed table request. *)
Definition quiet (e : Event) : Prop :=
  match e with
  | Mount | Unmount => False
  | TableSettled o => thrown_in_try o = None
  | _ => True
  end.

(** A table answer whose error carries no message. *)
Definition unexplained_failure : settled :=
  Fulfilled (Obj [("data", Null); ("error", Obj [("code", Str "PGRST301")])]).

(** What a row shows of its record: the formatted resolved price, the badge
    of the resolved change and the formatted resolved market cap. *)
Definition shows `{Host} (crypto : value) (r : Row) : Prop :=
  exists p c m,
    price crypto = Normal p /\ change crypto = Normal c /\ marketCap crypto = Normal m
    /\ price_cell r = formatPrice p
    /\ change_cell r = badge c
    /\ marketCap_cell r = "$" ++ formatNumber m.

(** A feed answer with a [null] among its records. *)
Definition page_with_null : Response :=
  {| status := 200; json := Normal (Arr [bitcoin_row; Null]) |}.

(** Strings of decimal digits. *)
Definition is_digit (c : ascii) : bool :=
  Nat.leb 48 (nat_of_ascii c) && Nat.leb (nat_of_ascii c) 57.

Fixpoint all_digits (s : string) : bool :=
  match s with
  | EmptyString => true
  | String c rest => is_digit c && all_digits rest
  end.

(** The text of a badge: an arrow, a space, an integer part, a point, a
    fraction and a percent sign. *)
Definition badge_text (arrow int frac : string) : string :=
  arrow ++ " " ++ int ++ "." ++ frac ++ "%".

(** A text field of a price record: a string, or absent. *)
Definition string_or_absent (v : value) : Prop := absent v \/ exists t, v = Str t.
(** ** Lemmas on fetchCryptos *)

Lemma destructure_Normal (v : value) (k : string) (x : value) :
  get v k = Normal x -> destructure v k = Normal x.
Proof. destruct v; simpl; intros H; try discriminate H; exact H. Qed.

Lemma destructure_Normal_get (v : value) (k : string) (x : value) :
  destructure v k = Normal x -> get v k = Normal x.
Proof. destruct v; simpl; intros H; try discriminate H; exact H. Qed.

Lemma destructure_throws_TypeError (v : value) (k : string) (e : value) :
  destructure v k = Throw e -> exists msg, e = TypeError msg.
Proof.
  destruct v; simpl; intros H; inversion H; unfold destructure_error; eauto.
Qed.

Lemma fetchCryptos_resume_succeeded (o : settled) (data : value) (w : World) :
  succeeded o data ->
  fetchCryptos_resume o w
  = (Normal tt, with_loading false (with_cryptos (JS.or data (Arr [])) w)).
Proof.
  intros (r & e & -> & Hd & He & Ht).
  unfold fetchCryptos_resume, try_finally, try_catch, bind, await, ret, lift.
  rewrite (destructure_Normal r "data" data Hd), He, Ht. reflexivity.
Qed.

Lemma get_not_nullish (v : value) (k : string) :
  v <> Undefined -> v <> Null -> exists x, get v k = Normal x.
Proof.
  destruct v; intros Hu Hn; try contradiction; simpl; eauto.
Qed.

Lemma get_throws_TypeError (v : value) (k : string) (e : value) :
  get v k = Throw e -> exists msg, e = TypeError msg.
Proof.
  destruct v; simpl; intros H; inversion H; unfold read_error; eauto.
Qed.

Lemma thrown_in_try_caught (o : settled) (e : value) (w : World) :
  thrown_in_try o = Some e ->
  fetchCryptos_resume o w
  = try_finally
      (console_write "Error fetching cryptos:" e ;;;
       message <- lift (get e "message") ;; setError message)
      (setLoading false) w.
Proof.
  unfold thrown_in_try, fetchCryptos_resume, try_finally, try_catch, bind, await,
    ret, lift, throw.
  destruct o as [r | reason].
  - destruct (destructure r "data") as [d | x]; [destruct (get r "error") as [y | y] |].
    + destruct (truthy y); intros H; inversion H; subst; reflexivity.
    + intros H; inversion H; subst; reflexivity.
    + intros H; inversion H; subst; reflexivity.
  - intros H; inversion H; subst; reflexivity.
Qed.

Lemma fetchCryptos_resume_failed (o : settled) (e message : value) (w : World) :
  thrown_in_try o = Some e ->
  get e "message" = Normal message ->
  fetchCryptos_resume o w
  = (Normal tt,
     with_loading false (with_error message (logged "Error fetching cryptos:" e w))).
Proof.
  intros Ht Hm. rewrite (thrown_in_try_caught o e w Ht).
  unfold try_finally, bind, lift. simpl. rewrite Hm. reflexivity.
Qed.

(** What the table service reports as a failure always carries a readable
    [message] property: the thrown value is a truthy [error] or a TypeError. *)
Lemma reported_failure_has_message (r e : value) :
  thrown_in_try (Fulfilled r) = Some e -> exists m, get e "message" = Normal m.
Proof.
  unfold thrown_in_try.
  destruct (destructure r "data") as [d | x] eqn:Hd.
  - destruct (get r "error") as [y | y] eqn:He.
    + destruct (truthy y) eqn:Hy; intros H; inversion H; subst.
      apply get_not_nullish; intros ->; discriminate.
    + intros H; inversion H; subst.
      destruct (get_throws_TypeError _ _ _ He) as [msg ->]. simpl. eauto.
  - intros H; inversion H; subst.
    destruct (destructure_throws_TypeError _ _ _ Hd) as [msg ->]. simpl. eauto.
Qed.

Lemma fetchCryptos_resume_loading (o : settled) (w : World) :
  loading (snd (fetchCryptos_resume o w)) = false.
Proof.
  unfold fetchCryptos_resume, try_finally.
  destruct (try_catch _ _ w) as [c w']. reflexivity.
Qed.

(** ** resolveDisplayList *)

(** C1. [displayData] is [liveData] whenever [liveData] is a sequence, the
    empty one included, and [cryptos] when [liveData] is absent; it is always
    one of the two sources as a whole, never a mixture of their records. *)
Theorem displayData_source_precedence :
  (forall (w : World) (records : list value),
     displayData (with_liveData (Arr records) w) = Arr records)
  /\ (forall w : World, displayData (with_liveData (Arr []) w) = Arr [])
  /\ (forall w : World, displayData (with_liveData Undefined w) = cryptos w)
  /\ (forall w : World, displayData w = liveData w \/ displayData w = cryptos w).
Proof.
  repeat split; try reflexivity.
  intros w. unfold displayData, JS.or.
  destruct (truthy (liveData w)); [left | right]; reflexivity.
Qed.

(** ** fetchTableSnapshot: success *)

(** C2, as stated, fails: after a failed fetch has set [error], a later
    successful fetch stores the rows and leaves [error] as it was. *)
Lemma success_keeps_earlier_error :
  let w := run [Mount; TableSettled table_missing; Changed a_change] initial in
  let w' := step (TableSettled two_rows) w in
  succeeded two_rows (Arr [bitcoin_row; ether_row])
  /\ cryptos w' = Arr [bitcoin_row; ether_row]
  /\ error w' = Str "relation does not exist"
  /\ truthy (error w') = true.
Proof.
  cbv zeta. split.
  - exists (Obj [("data", Arr [bitcoin_row; ether_row]); ("error", Null)]), Null.
    repeat split; reflexivity.
  - repeat split; reflexivity.
Qed.

(** C2, amended.  A successful fetch returns normally, replaces [cryptos]
    with the fetched rows (the empty sequence when there are none), leaves
    [error] unchanged and ends with [loading] false; so [error] is absent
    after it exactly when it was absent before. *)
Theorem fetch_success_replaces_rows (o : settled) (data : value) (w : World) :
  succeeded o data ->
  let w' := snd (fetchCryptos_resume o w) in
  fst (fetchCryptos_resume o w) = Normal tt
  /\ cryptos w' = JS.or data (Arr [])
  /\ (forall rows, data = Arr rows -> cryptos w' = Arr rows)
  /\ (data = Null -> cryptos w' = Arr [])
  /\ error w' = error w
  /\ loading w' = false.
Proof.
  intros Hs. cbv zeta. rewrite (fetchCryptos_resume_succeeded o data w Hs).
  repeat split; try reflexivity.
  - intros rows ->. reflexivity.
  - intros ->. reflexivity.
Qed.

Lemma fetch_success_replaces_rows_witness :
  succeeded two_rows (Arr [bitcoin_row; ether_row])
  /\ cryptos (snd (fetchCryptos_resume two_rows initial)) = Arr [bitcoin_row; ether_row]
  /\ error (snd (fetchCryptos_resume two_rows initial)) = Null.
Proof.
  assert (Hs : succeeded two_rows (Arr [bitcoin_row; ether_row])).
  { exists (Obj [("data", Arr [bitcoin_row; ether_row]); ("error", Null)]), Null.
    repeat split; reflexivity. }
  split; [exact Hs |].
  pose proof (fetch_success_replaces_rows two_rows _ initial Hs) as H.
  cbv zeta in H. destruct H as (_ & H1 & _ & _ & H2 & _).
  split; [exact H1 | exact H2].
Defined.

(** ** fetchTableSnapshot: failure *)

(** C3.  When the request fails with a value [e] that has a readable
    [message] (every failure reported by the table service has one, and so
    has every rejection reason other than [undefined] and [null]),
    [fetchCryptos] returns normally, sets [error] to that message and leaves
    [cryptos] unchanged; and whatever the outcome, [loading] ends false. *)
Theorem fetch_failure_sets_error (o : settled) (e message : value) (w : World) :
  thrown_in_try o = Some e ->
  get e "message" = Normal message ->
  let w' := snd (fetchCryptos_resume o w) in
  fst (fetchCryptos_resume o w) = Normal tt
  /\ error w' = message
  /\ cryptos w' = cryptos w
  /\ loading w' = false
  /\ (forall (o' : settled) (w0 : World), loading (snd (fetchCryptos_resume o' w0)) = false)
  /\ (forall r e', thrown_in_try (Fulfilled r) = Some e' ->
        exists m, get e' "message" = Normal m).
Proof.
  intros Ht Hm. cbv zeta. rewrite (fetchCryptos_resume_failed o e message w Ht Hm).
  repeat split.
  - apply fetchCryptos_resume_loading.
  - apply reported_failure_has_message.
Qed.

Lemma fetch_failure_sets_error_witness :
  let w := step (TableSettled two_rows) (step Mount initial) in
  let w' := snd (fetchCryptos_resume table_missing w) in
  fst (fetchCryptos_resume table_missing w) = Normal tt
  /\ error w' = Str "relation does not exist"
  /\ cryptos w' = Arr [bitcoin_row; ether_row]
  /\ loading w' = false.
Proof.
  cbv zeta.
  pose proof (fetch_failure_sets_error table_missing
                (Obj [("message", Str "relation does not exist")])
                (Str "relation does not exist")
                (step (TableSettled two_rows) (step Mount initial))
                eq_refl eq_refl) as H.
  cbv zeta in H. destruct H as (H1 & H2 & H3 & H4 & _).
  split; [exact H1 |]. split; [exact H2 |]. split; [| exact H4].
  rewrite H3. reflexivity.
Defined.

(** ** pollLiveFeed *)

Lemma fetcher_ignores_status (s1 s2 : Z) (j : completion value) :
  fetcher (Responded {| status := s1; json := j |})
  = fetcher (Responded {| status := s2; json := j |}).
Proof. reflexivity. Qed.

(** C10, as stated, fails: a response whose body parses to [null] replaces
    [liveData] but does not supersede the table rows in [displayData]. *)
Lemma null_body_does_not_supersede :
  let w' := step (FeedSettled (Responded null_body)) the_table_rows in
  fetcher (Responded null_body) = Normal Null
  /\ liveData w' = Null
  /\ displayData w' = Arr [bitcoin_row; ether_row]
  /\ displayData w' <> liveData w'.
Proof.
  cbv zeta. repeat split. discriminate.
Qed.

(** C10, amended.  The fetcher never reads the status: whenever the body of
    the response parses, to [v], the poll succeeds and [liveData] becomes
    [v], an error object included; [displayData] is then [v] if [v] is truthy
    (every array and every object is) and the table rows if [v] is [null],
    [false], [0] or the empty string.  A rejected fetch or a body that does
    not parse leaves [liveData] as it was. *)
Theorem poll_replaces_liveData (w : World) :
  mounted w = true ->
  (forall (s : Z) (v : value),
     let w' := step (FeedSettled (Responded {| status := s; json := Normal v |})) w in
     liveData w' = v
     /\ cryptos w' = cryptos w
     /\ displayData w' = (if truthy v then v else cryptos w))
  /\ (forall (s : Z) (fields : list (string * value)),
        displayData (step (FeedSettled (Responded {| status := s; json := Normal (Obj fields) |})) w)
        = Obj fields)
  /\ (forall (s : Z) (items : list value),
        displayData (step (FeedSettled (Responded {| status := s; json := Normal (Arr items) |})) w)
        = Arr items)
  /\ (forall reason : value,
        step (FeedSettled (NetworkError reason)) w = w)
  /\ (forall (s : Z) (e : value),
        step (FeedSettled (Responded {| status := s; json := Throw e |})) w = w).
Proof.
  intros Hm.
  split; [| split; [| split; [| split]]].
  - intros s v. cbv zeta. unfold step. rewrite Hm. repeat split.
  - intros s fields. unfold step. rewrite Hm. reflexivity.
  - intros s items. unfold step. rewrite Hm. reflexivity.
  - intros reason. unfold step. rewrite Hm. destruct w; reflexivity.
  - intros s e. unfold step. rewrite Hm. destruct w; reflexivity.
Qed.

Lemma poll_replaces_liveData_witness :
  displayData (step (FeedSettled (Responded rate_limited)) the_table_rows)
  = Obj [("status", Obj [("error_code", Num 429%float);
                         ("error_message", Str "Rate limit exceeded")])].
Proof.
  exact (proj1 (proj2 (poll_replaces_liveData the_table_rows eq_refl)) 429%Z _).
Defined.

(** ** onTableChangeNotification *)

(** C7.  While the subscription is open, every change of the watched table
    (insert, update or delete, whatever its payload) calls [fetchCryptos]:
    [loading] becomes true and the query for the first 20 rows by descending
    [market_cap] is issued again; the payload is only logged. *)
Theorem change_refetches (w : World) (c : Change) :
  subscription w = true ->
  change_schema c = "public" ->
  change_table c = "crypto_prices" ->
  let w' := step (Changed c) w in
  w' = snd (fetchCryptos_call (logged "Change received!" (payload c) w))
  /\ inflight w' = (inflight w ++ [fetchCryptos_query])%list
  /\ loading w' = true
  /\ cryptos w' = cryptos w /\ error w' = error w /\ liveData w' = liveData w
  /\ console w' = (console w ++ [("Change received!", payload c)])%list
  /\ limit fetchCryptos_query = 20
  /\ order fetchCryptos_query = "market_cap"
  /\ ascending fetchCryptos_query = false.
Proof.
  intros Hs Hsch Htab. cbv zeta. unfold step, delivers.
  rewrite Hs, Hsch, Htab. simpl. repeat split.
Qed.

Lemma change_refetches_witness :
  inflight (step (Changed a_change) the_table_rows) = [fetchCryptos_query]
  /\ loading (step (Changed a_change) the_table_rows) = true.
Proof.
  pose proof (change_refetches the_table_rows a_change eq_refl eq_refl eq_refl) as H.
  cbv zeta in H. destruct H as (_ & H1 & H2 & _).
  split; [exact H1 | exact H2].
Defined.

(** ** Unmount *)

Lemma fetchCryptos_resume_outside (o : settled) (w : World) :
  let w' := snd (fetchCryptos_resume o w) in
  liveData w' = liveData w /\ cache w' = cache w
  /\ subscription w' = subscription w /\ mounted w' = mounted w
  /\ inflight w' = inflight w /\ orphans w' = orphans w.
Proof.
  cbv zeta.
  destruct (thrown_in_try o) as [e |] eqn:Ht.
  - rewrite (thrown_in_try_caught o e w Ht).
    unfold try_finally, bind, lift. simpl.
    destruct (get e "message"); repeat split.
  - unfold thrown_in_try in Ht.
    destruct o as [r | reason]; [| discriminate].
    destruct (destructure r "data") as [d | x] eqn:Hd; [| discriminate].
    destruct (get r "error") as [y | y] eqn:He; [| discriminate].
    destruct (truthy y) eqn:Hy; [discriminate |].
    apply destructure_Normal_get in Hd.
    assert (Hs : succeeded (Fulfilled r) d) by (exists r, y; auto).
    rewrite (fetchCryptos_resume_succeeded _ d w Hs). repeat split.
Qed.

(** A late answer writes none of the cells and leaves the requests of the
    mounted instance alone. *)
Lemma step_late_settled (o : settled) (w : World) :
  let w' := step (LateSettled o) w in
  cryptos w' = cryptos w /\ loading w' = loading w /\ error w' = error w
  /\ liveData w' = liveData w
  /\ subscription w' = subscription w /\ mounted w' = mounted w
  /\ inflight w' = inflight w
  /\ List.length (orphans w') <= List.length (orphans w).
Proof.
  cbv zeta. unfold step.
  destruct (orphans w) as [| q rest] eqn:Ho; [rewrite Ho; repeat split; simpl; lia |].
  unfold bind, dropped. simpl.
  match goal with
  | |- context [fetchCryptos_resume o ?w0] =>
      pose proof (fetchCryptos_resume_outside o w0) as Hout;
      destruct (fetchCryptos_resume o w0) as [c w'] eqn:Hrun
  end.
  cbv zeta in Hout. simpl in Hout. simpl.
  destruct Hout as (H1 & _ & H3 & H4 & H5 & H6).
  repeat split; try assumption. rewrite H6. lia.
Qed.

(** While no instance is mounted and nothing is in flight for one, no event
    short of a mount writes a cell, opens the subscription or sends a
    request. *)
Lemma step_while_unmounted (e : Event) (w : World) :
  e <> Mount ->
  mounted w = false -> subscription w = false -> inflight w = [] ->
  (mounted (step e w) = false /\ subscription (step e w) = false
   /\ inflight (step e w) = [])
  /\ cryptos (step e w) = cryptos w /\ loading (step e w) = loading w
  /\ error (step e w) = error w /\ liveData (step e w) = liveData w
  /\ List.length (orphans (step e w)) <= List.length (orphans w).
Proof.
  intros Hne Hm Hs Hi. destruct e as [| c | o | f | | o].
  - destruct Hne; reflexivity.
  - unfold step. rewrite Hs. simpl. repeat split; try assumption. lia.
  - unfold step. rewrite Hi. repeat split; try assumption. lia.
  - unfold step. rewrite Hm. simpl. repeat split; try assumption. lia.
  - simpl. rewrite Hi, app_nil_r. repeat split. lia.
  - pose proof (step_late_settled o w) as H. cbv zeta in H.
    destruct H as (H1 & H2 & H3 & H4 & H5 & H6 & H7 & H8).
    repeat split; congruence || assumption.
Qed.

Lemma run_while_unmounted (es : list Event) :
  Forall (fun e => e <> Mount) es ->
  forall w,
    mounted w = false -> subscription w = false -> inflight w = [] ->
    (mounted (run es w) = false /\ subscription (run es w) = false
     /\ inflight (run es w) = [])
    /\ cryptos (run es w) = cryptos w /\ loading (run es w) = loading w
    /\ error (run es w) = error w /\ liveData (run es w) = liveData w
    /\ List.length (orphans (run es w)) <= List.length (orphans w).
Proof.
  induction 1 as [| e es He Hes IH]; intros w Hm Hs Hi; simpl.
  - repeat split; try assumption. lia.
  - destruct (step_while_unmounted e w He Hm Hs Hi)
      as ((Hm1 & Hs1 & Hi1) & Hc & Hl & Her & Hld & Ho).
    destruct (IH (step e w) Hm1 Hs1 Hi1)
      as (Hinv & Hc' & Hl' & Her' & Hld' & Ho').
    split; [exact Hinv |]. repeat split; try congruence. lia.
Qed.

(** The requests in [inflight] always belong to the mounted instance: in
    every state the page can reach, the subscription is open exactly while
    an instance is mounted, and nothing is in flight for an instance that is
    not. *)
Lemma step_inflight_mounted (e : Event) (w : World) :
  subscription w = mounted w /\ (mounted w = false -> inflight w = []) ->
  subscription (step e w) = mounted (step e w)
  /\ (mounted (step e w) = false -> inflight (step e w) = []).
Proof.
  intros [Hs Hi]. destruct e as [| c | o | f | | o].
  - split; [reflexivity | discriminate].
  - unfold step. destruct (subscription w && delivers crypto_changes c) eqn:E.
    + apply andb_true_iff in E. destruct E as [E _].
      simpl. split; [exact Hs |]. intros Hm. congruence.
    + split; assumption.
  - unfold step. destruct (inflight w) as [| q rest] eqn:Hq; [rewrite Hq; split; assumption |].
    destruct (mounted w) eqn:Hm; [| specialize (Hi eq_refl); discriminate Hi].
    unfold bind. simpl.
    match goal with
    | |- context [fetchCryptos_resume o ?w0] =>
        pose proof (fetchCryptos_resume_outside o w0) as Hout
    end.
    cbv zeta in Hout. simpl in Hout.
    destruct Hout as (_ & _ & H3 & H4 & _).
    rewrite H3, H4. split; [congruence | rewrite Hm; discriminate].
  - assert (E : subscription (step (FeedSettled f) w) = subscription w
                /\ mounted (step (FeedSettled f) w) = mounted w
                /\ inflight (step (FeedSettled f) w) = inflight w)
      by (unfold step; destruct (mounted w) eqn:Hm; simpl; rewrite ?Hm; repeat split).
    destruct E as (E1 & E2 & E3). rewrite E1, E2, E3. split; assumption.
  - split; reflexivity.
  - pose proof (step_late_settled o w) as H. cbv zeta in H.
    destruct H as (_ & _ & _ & _ & H5 & H6 & H7 & _).
    rewrite H5, H6, H7. split; assumption.
Qed.

Lemma requests_belong_to_mounted_instance (es : list Event) :
  subscription (run es initial) = mounted (run es initial)
  /\ (mounted (run es initial) = false -> inflight (run es initial) = []).
Proof.
  assert (H : forall w,
             subscription w = mounted w /\ (mounted w = false -> inflight w = []) ->
             subscription (run es w) = mounted (run es w)
             /\ (mounted (run es w) = false -> inflight (run es w) = [])).
  { induction es as [| e es IH]; intros w Hw; simpl; [exact Hw |].
    apply IH, step_inflight_mounted, Hw. }
  apply H. split; reflexivity.
Qed.



(** The page has no guard of its own: the rest of [fetchCryptos] still runs
    for a late answer, and a late failure is still written to the console. *)
Example late_failure_is_still_logged :
  console (step (LateSettled table_missing) (step Unmount (step Mount initial)))
  = [("Error fetching cryptos:", Obj [("message", Str "relation does not exist")])].
Proof. reflexivity. Qed.

(** An answer of the feed that arrives while no instance is mounted is
    handed to the instance mounted next. *)
Example cached_answer_reaches_next_mount :
  let w := run [Mount; Unmount; FeedSettled (Responded feed_page); Mount] initial in
  json feed_page = Normal (liveData w) /\ cryptos w = Arr [] /\ loading w = true.
Proof. cbv zeta. repeat split. Qed.

(** ** Field resolution *)

Lemma get_field (fs : list (string * value)) (k : string) :
  get (Obj fs) k = Normal (field k fs).
Proof. reflexivity. Qed.

Lemma or_else_Normal (a : value) (b : completion value) :
  or_else (Normal a) b = if truthy a then Normal a else b.
Proof. reflexivity. Qed.

Lemma absent_falsy (v : value) : absent v -> truthy v = false.
Proof. intros [-> | ->]; reflexivity. Qed.

Lemma resolve_one (a : value) :
  number_or_absent a ->
  exists x, or_else (Normal a) (Normal (Num 0)) = Normal (Num x).
Proof.
  intros [Ha | [x ->]]; rewrite or_else_Normal.
  - rewrite (absent_falsy a Ha). eauto.
  - destruct (truthy (Num x)); eauto.
Qed.

Lemma resolve_two (a b : value) :
  number_or_absent a -> number_or_absent b ->
  exists x, or_else (Normal a) (or_else (Normal b) (Normal (Num 0))) = Normal (Num x).
Proof.
  intros [Ha | [x ->]] Hb; rewrite or_else_Normal.
  - rewrite (absent_falsy a Ha). apply resolve_one, Hb.
  - destruct (truthy (Num x)); [eauto | apply resolve_one, Hb].
Qed.

Lemma resolve_two_absent (a b : value) :
  absent a -> absent b ->
  or_else (Normal a) (or_else (Normal b) (Normal (Num 0))) = Normal (Num 0).
Proof.
  intros Ha Hb. rewrite !or_else_Normal.
  rewrite (absent_falsy a Ha), (absent_falsy b Hb). reflexivity.
Qed.

Lemma resolve_two_first (a b : value) :
  truthy a = true ->
  or_else (Normal a) (or_else (Normal b) (Normal (Num 0))) = Normal a.
Proof. intros Ha. rewrite or_else_Normal, Ha. reflexivity. Qed.

Lemma resolve_two_second (a b : value) :
  absent a -> truthy b = true ->
  or_else (Normal a) (or_else (Normal b) (Normal (Num 0))) = Normal b.
Proof.
  intros Ha Hb. rewrite !or_else_Normal, (absent_falsy a Ha), Hb. reflexivity.
Qed.

(** ** Rendered rows *)

Lemma row_total `{Host} (crypto : value) (index : nat) :
  nullish crypto = false -> exists r, row crypto index = Normal r.
Proof.
  intros Hn. unfold row, price, change, marketCap.
  destruct crypto; try discriminate Hn; simpl;
    repeat (rewrite ?or_else_Normal; simpl;
            match goal with
            | |- context [truthy ?v] => destruct (truthy v)
            end; simpl);
    eauto.
Qed.

(** A rendered row shows the badge of the resolved change, the formatted
    resolved price and market cap, and the 1-based rank. *)
Lemma row_cells `{Host} (crypto : value) (index : nat) (r : Row) :
  row crypto index = Normal r ->
  exists p c m,
    price crypto = Normal p /\ change crypto = Normal c /\ marketCap crypto = Normal m
    /\ price_cell r = formatPrice p
    /\ change_cell r = badge c
    /\ marketCap_cell r = "$" ++ formatNumber m
    /\ rank r = index + 1.
Proof.
  unfold row.
  destruct (price crypto) as [p | ?]; simpl; [| discriminate].
  destruct (change crypto) as [c | ?]; simpl; [| discriminate].
  destruct (marketCap crypto) as [m | ?]; simpl; [| discriminate].
  repeat match goal with
         | |- context [and_then ?x _] => destruct x; simpl; [| discriminate]
         end.
  intros E. inversion E; subst r; simpl.
  exists p, c, m. repeat split.
Qed.

Lemma rows_from_inversion `{Host} (items : list value) :
  forall (index : nat) (rows : list Row),
    rows_from index items = Normal rows ->
    List.length rows = List.length items
    /\ List.map rank rows = List.seq (index + 1) (List.length items)
    /\ Forall2 shows items rows.
Proof.
  induction items as [| crypto rest IH]; intros index rows Hr; simpl in Hr.
  - inversion Hr; subst. repeat split. constructor.
  - destruct (row crypto index) as [r | x] eqn:Hrow; simpl in Hr; [| discriminate].
    destruct (rows_from (S index) rest) as [rs | x] eqn:Hrest; simpl in Hr; [| discriminate].
    inversion Hr; subst rows.
    destruct (IH (S index) rs Hrest) as (Hlen & Hrank & Hshow).
    destruct (row_cells crypto index r Hrow) as (p & c & m & Hp & Hc & Hm & H1 & H2 & H3 & H4).
    split; [simpl; congruence |]. split.
    + simpl. rewrite H4, Hrank. replace (S index + 1) with (S (index + 1)) by lia.
      reflexivity.
    + constructor; [| exact Hshow]. exists p, c, m. auto 10.
Qed.

Lemma Home_table_shows `{Host} (w : World) (rows : list Row) :
  Home w = Normal (Dashboard (DataTable rows)) ->
  exists items, displayData w = Arr items /\ Forall2 shows items rows.
Proof.
  unfold Home. destruct (truthy (error w)); [discriminate |].
  cbv zeta. intros Hh.
  destruct (if loading w then not_length (displayData w) else Normal false)
    as [[|] | x] eqn:Hsp; simpl in Hh; try discriminate Hh.
  destruct (displayData w) as [| | b | x | s | items | fs];
    simpl in Hh; try discriminate Hh.
  destruct (rows_from 0 items) as [rs | x] eqn:Hr; simpl in Hh; [| discriminate Hh].
  inversion Hh; subst rs.
  exists items. split; [reflexivity |].
  apply (rows_from_inversion items 0 rows Hr).
Qed.

(** C6.  For a record whose price and change fields are numbers or absent,
    the displayed price is a single number: [current_price] when the record
    has a non-zero one, else [price], and [0] when both are absent; the
    displayed change follows the same rule on
    [price_change_percentage_24h] and [change_24h]; the displayed market cap
    is [market_cap], or [0] when it is absent.  These resolved values are
    the ones displayed: the row of the record exists and shows the formatted
    resolved price, the badge of the resolved change and the formatted
    resolved market cap, and so does every row of a table that [Home]
    returns for the record of the display list at its position. *)
Theorem displayed_numbers_resolved `{Host} (fs : list (string * value)) :
  let crypto := Obj fs in
  (number_or_absent (field "current_price" fs) ->
   number_or_absent (field "price" fs) ->
   exists x, price crypto = Normal (Num x))
  /\ (truthy (field "current_price" fs) = true ->
      price crypto = Normal (field "current_price" fs))
  /\ (absent (field "current_price" fs) -> truthy (field "price" fs) = true ->
      price crypto = Normal (field "price" fs))
  /\ (absent (field "current_price" fs) -> absent (field "price" fs) ->
      price crypto = Normal (Num 0))
  /\ (number_or_absent (field "price_change_percentage_24h" fs) ->
      number_or_absent (field "change_24h" fs) ->
      exists x, change crypto = Normal (Num x))
  /\ (truthy (field "price_change_percentage_24h" fs) = true ->
      change crypto = Normal (field "price_change_percentage_24h" fs))
  /\ (absent (field "price_change_percentage_24h" fs) ->
      truthy (field "change_24h" fs) = true ->
      change crypto = Normal (field "change_24h" fs))
  /\ (absent (field "price_change_percentage_24h" fs) ->
      absent (field "change_24h" fs) ->
      change crypto = Normal (Num 0))
  /\ (number_or_absent (field "market_cap" fs) ->
      exists x, marketCap crypto = Normal (Num x))
  /\ (truthy (field "market_cap" fs) = true ->
      marketCap crypto = Normal (field "market_cap" fs))
  /\ (absent (field "market_cap" fs) -> marketCap crypto = Normal (Num 0))
  /\ (forall index : nat,
        exists r p c m,
          row crypto index = Normal r
          /\ price crypto = Normal p /\ change crypto = Normal c
          /\ marketCap crypto = Normal m
          /\ price_cell r = formatPrice p
          /\ change_cell r = badge c
          /\ marketCap_cell r = "$" ++ formatNumber m)
  /\ (forall (w : World) (rows : list Row),
        Home w = Normal (Dashboard (DataTable rows)) ->
        exists items, displayData w = Arr items /\ Forall2 shows items rows).
Proof.
  cbv zeta.
  assert (Hrow : forall index : nat,
             exists r p c m,
               row (Obj fs) index = Normal r
               /\ price (Obj fs) = Normal p /\ change (Obj fs) = Normal c
               /\ marketCap (Obj fs) = Normal m
               /\ price_cell r = formatPrice p
               /\ change_cell r = badge c
               /\ marketCap_cell r = "$" ++ formatNumber m).
  { intros index. destruct (row_total (Obj fs) index eq_refl) as [r Hr].
    destruct (row_cells (Obj fs) index r Hr) as (p & c & m & Hp & Hc & Hm & H1 & H2 & H3 & _).
    exists r, p, c, m. auto 10. }
  unfold price, change, marketCap in *. rewrite !get_field in *.
  split; [apply resolve_two |].
  split; [apply resolve_two_first |].
  split; [apply resolve_two_second |].
  split; [apply resolve_two_absent |].
  split; [apply resolve_two |].
  split; [apply resolve_two_first |].
  split; [apply resolve_two_second |].
  split; [apply resolve_two_absent |].
  split; [apply resolve_one |].
  split; [| split; [| split; [exact Hrow | exact Home_table_shows]]].
  - intros Ht. rewrite or_else_Normal, Ht. reflexivity.
  - intros Ha. rewrite or_else_Normal, (absent_falsy _ Ha). reflexivity.
Qed.

Lemma displayed_numbers_resolved_witness :
  price bitcoin_row = Normal (Num 64000%float)
  /\ change bitcoin_row = Normal (Num (-1.5)%float)
  /\ marketCap (Obj [("name", Str "Dogecoin")]) = Normal (Num 0)
  /\ (exists r, @row sample_host bitcoin_row 0 = Normal r
                /\ price_cell r = @formatPrice sample_host (Num 64000%float)).
Proof.
  pose proof (@displayed_numbers_resolved sample_host
                [("id", Num 1%float); ("name", Str "Bitcoin"); ("symbol", Str "btc");
                 ("price", Num 64000%float); ("market_cap", Num 1200000000000%float);
                 ("change_24h", Num (-1.5)%float)]) as H.
  cbv zeta in H.
  destruct H as (_ & _ & Hprice & _ & _ & _ & _ & _ & _ & _ & _ & Hrow & _).
  split; [| split; [| split]].
  - refine (Hprice _ eq_refl). left. reflexivity.
  - reflexivity.
  - reflexivity.
  - destruct (Hrow 0) as (r & p & c & m & Hr & Hp & _ & _ & Hcell & _).
    exists r. split; [exact Hr |].
    rewrite Hcell. inversion Hp. reflexivity.
Defined.

(** ** The change badge *)

Lemma nearest_is_nearest (m : positive) (e : Z) (f : nat) :
  is_nearest (nearest m e f) m e f.
Proof.
  unfold is_nearest, nearest.
  destruct (0 <=? e)%Z eqn:He; [reflexivity |].
  apply Z.leb_gt in He.
  set (a := (Z.pos m * 10 ^ Z.of_nat f)%Z).
  assert (Hd : (0 < 2 ^ (- e))%Z) by (apply Z.pow_pos_nonneg; lia).
  set (d := (2 ^ (- e))%Z) in *.
  pose proof (Z.div_mod (2 * a + d) (2 * d) ltac:(lia)) as Hdm.
  pose proof (Z.mod_pos_bound (2 * a + d) (2 * d) ltac:(lia)) as Hr.
  nia.
Qed.

(** [Math.abs(x).toFixed(f)] carries no sign. *)
Lemma toFixed_abs `{Host} (x : float) (f : nat) :
  toFixed (PrimFloat.abs x) f
  = match Prim2SF x with
    | S754_nan | S754_infinity _ => NumberToString (PrimFloat.abs x)
    | S754_zero _ => fixed_point 0 f
    | S754_finite _ m e =>
        if ge_1e21 m e then NumberToString (PrimFloat.abs (PrimFloat.abs x))
        else fixed_point (nearest m e f) f
    end.
Proof.
  unfold toFixed. rewrite abs_spec.
  destruct (Prim2SF x); reflexivity.
Qed.

Lemma arrows_differ : "↑" <> "↓".
Proof. discriminate. Qed.

(** C8.  The badge of a change [x] shows the up arrow with the green classes
    exactly when [x >= 0], and the down arrow with the red classes otherwise;
    its text is the arrow, a space, [Math.abs(x).toFixed(2)] and a percent
    sign, where, for a finite [x = m * 2^e] below [10^21] in magnitude, the
    digits are those of the integer nearest to [100 * |x|], with the point
    before the last two; the change -3.456 renders as "↓ 3.46%".  Every
    rendered row carries the badge of its resolved change. *)
Theorem badge_shows_direction_and_magnitude `{Host} (x : float) :
  let b := badge (Num x) in
  (arrow b = "↑" <-> PrimFloat.leb PrimFloat.zero x = true)
  /\ (if PrimFloat.leb PrimFloat.zero x
      then arrow b = "↑"
           /\ className b = badge_base ++ "bg-green-500/20 text-green-400"
      else arrow b = "↓"
           /\ className b = badge_base ++ "bg-red-500/20 text-red-400")
  /\ text b = arrow b ++ " " ++ toFixed (PrimFloat.abs x) 2 ++ "%"
  /\ (forall s m e,
        Prim2SF x = S754_finite s m e -> ge_1e21 m e = false ->
        toFixed (PrimFloat.abs x) 2 = fixed_point (nearest m e 2) 2
        /\ is_nearest (nearest m e 2) m e 2)
  /\ (forall s, Prim2SF x = S754_zero s -> toFixed (PrimFloat.abs x) 2 = "0.00")
  /\ text (badge (Num (-3.456)%float)) = "↓ 3.46%"
  /\ className (badge (Num (-3.456)%float))
     = badge_base ++ "bg-red-500/20 text-red-400"
  /\ (forall crypto index r,
        row crypto index = Normal r ->
        exists c, change crypto = Normal c /\ change_cell r = badge c).
Proof.
  cbv zeta. unfold badge, isPositive, ge_zero, Math_abs, ToNumber. simpl.
  split; [| split; [| split; [| split; [| split; [| split; [| split]]]]]].
  - destruct (PrimFloat.leb PrimFloat.zero x); split; intros E; try reflexivity.
    + symmetry in E. destruct (arrows_differ E).
    + discriminate E.
  - destruct (PrimFloat.leb PrimFloat.zero x); split; reflexivity.
  - reflexivity.
  - intros s m e Hx Hlt. rewrite toFixed_abs, Hx, Hlt.
    split; [reflexivity | apply nearest_is_nearest].
  - intros s Hx. rewrite toFixed_abs, Hx. reflexivity.
  - vm_compute. reflexivity.
  - vm_compute. reflexivity.
  - intros crypto index r Hr.
    destruct (row_cells crypto index r Hr) as (p & c & m & _ & Hc & _ & _ & Hb & _).
    exists c. split; [exact Hc | exact Hb].
Qed.

(** ** The rendering dispatch *)

Lemma rows_from_total `{Host} (items : list value) :
  forallb (fun v => negb (nullish v)) items = true ->
  forall index, exists rows,
    rows_from index items = Normal rows /\ List.length rows = List.length items.
Proof.
  induction items as [| crypto rest IH]; intros Hall index; simpl.
  - exists []. split; reflexivity.
  - simpl in Hall. apply andb_true_iff in Hall. destruct Hall as [Hc Hrest].
    apply negb_true_iff in Hc.
    destruct (row_total crypto index Hc) as [r Hr].
    destruct (IH Hrest (S index)) as (rows & Hrows & Hlen).
    exists (r :: rows). rewrite Hr, Hrows. simpl. split; [reflexivity | congruence].
Qed.

(** C4.  When [error] is set, [Home] returns the error panel alone, whatever
    [loading] and the data are.  When [error] is unset and the display list
    is a sequence, it returns the loading indicator exactly when [loading]
    is true and the list is empty, and otherwise the data table, with one
    row per record. *)
Theorem Home_dispatch `{Host} (w : World) :
  (truthy (error w) = true -> Home w = Normal (ErrorPanel (error w)))
  /\ (forall records,
        truthy (error w) = false ->
        displayData w = Arr records ->
        (Home w = Normal (Dashboard Spinner) <-> loading w = true /\ records = [])
        /\ (~ (loading w = true /\ records = []) ->
            forallb (fun v => negb (nullish v)) records = true ->
            exists rows, Home w = Normal (Dashboard (DataTable rows))
                         /\ List.length rows = List.length records)).
Proof.
  split.
  - intros He. unfold Home. rewrite He. reflexivity.
  - intros records He Hd. unfold Home. rewrite He, Hd. simpl.
    split; [split |].
    + destruct (loading w); simpl.
      * destruct records as [| r rest]; simpl; [auto |].
        destruct (and_then (row r 0) _); simpl; discriminate.
      * destruct (rows_from 0 records); simpl; discriminate.
    + intros [Hl ->]. rewrite Hl. reflexivity.
    + intros Hno Hall.
      destruct (rows_from_total records Hall 0) as (rows & Hrows & Hlen).
      exists rows. split; [| exact Hlen].
      destruct (loading w) eqn:Hl; simpl.
      * destruct records as [| r rest]; [destruct Hno; auto |].
        simpl. simpl in Hrows. rewrite Hrows. reflexivity.
      * rewrite Hrows. reflexivity.
Qed.

Lemma Home_dispatch_witness :
  @Home sample_host (step (TableSettled table_missing) (step Mount initial))
  = Normal (ErrorPanel (Str "relation does not exist"))
  /\ @Home sample_host (step Mount initial) = Normal (Dashboard Spinner)
  /\ (exists rows, @Home sample_host the_table_rows = Normal (Dashboard (DataTable rows))
                   /\ List.length rows = 2).
Proof.
  split; [| split].
  - exact (proj1 (@Home_dispatch sample_host
                    (step (TableSettled table_missing) (step Mount initial))) eq_refl).
  - apply (proj1 (proj2 (@Home_dispatch sample_host (step Mount initial)) []
                   eq_refl eq_refl)).
    split; reflexivity.
  - apply (proj2 (proj2 (@Home_dispatch sample_host the_table_rows)
                   [bitcoin_row; ether_row] eq_refl eq_refl)).
    + intros [Hl _]. discriminate Hl.
    + reflexivity.
Defined.

(** ** The table snapshot *)

Lemma fetchCryptos_resume_cryptos (o : settled) (w : World) :
  cryptos (snd (fetchCryptos_resume o w)) = cryptos w
  \/ exists data, succeeded o data
                  /\ cryptos (snd (fetchCryptos_resume o w)) = JS.or data (Arr []).
Proof.
  destruct (thrown_in_try o) as [e |] eqn:Ht.
  - left. rewrite (thrown_in_try_caught o e w Ht).
    unfold try_finally, bind, lift. simpl.
    destruct (get e "message"); reflexivity.
  - right. unfold thrown_in_try in Ht.
    destruct o as [r | reason]; [| discriminate].
    destruct (destructure r "data") as [d | x] eqn:Hd; [| discriminate].
    destruct (get r "error") as [y | y] eqn:He; [| discriminate].
    destruct (truthy y) eqn:Hy; [discriminate |].
    apply destructure_Normal_get in Hd.
    assert (Hs : succeeded (Fulfilled r) d) by (exists r, y; auto).
    exists d. split; [exact Hs |].
    rewrite (fetchCryptos_resume_succeeded _ _ w Hs). reflexivity.
Qed.

Lemma fetchCryptos_resume_inflight (o : settled) (w : World) :
  inflight (snd (fetchCryptos_resume o w)) = inflight w.
Proof.
  unfold fetchCryptos_resume, try_finally, try_catch, bind, await, lift.
  destruct o as [r | reason]; simpl.
  - destruct (destructure r "data") as [d | x]; simpl.
    + destruct (get r "error") as [y | y]; simpl.
      * destruct (truthy y); simpl; [| reflexivity].
        destruct (get y "message"); reflexivity.
      * destruct (get y "message"); reflexivity.
    + destruct (get x "message"); reflexivity.
  - destruct (get reason "message"); reflexivity.
Qed.

Lemma honoured_rows_ordered (o : settled) (data : value) (w : World) :
  honours fetchCryptos_query o -> succeeded o data ->
  exists rows, JS.or data (Arr []) = Arr rows
               /\ List.length rows <= 20
               /\ Sorted (in_order fetchCryptos_query) rows.
Proof.
  intros Hh Hs. destruct (Hh data Hs) as [-> | (rows & -> & Hlen & Hsorted)].
  - exists []. repeat split; [simpl; lia | constructor].
  - exists rows. repeat split; assumption.
Qed.

Lemma step_preserves (e : Event) (w : World) :
  admissible w e ->
  only_top20_inflight w /\ table_ordered w ->
  only_top20_inflight (step e w) /\ table_ordered (step e w).
Proof.
  intros Ha [Hq Ht]. unfold only_top20_inflight in *.
  destruct e as [| c | o | f | | o]; simpl.
  - split; [repeat constructor |].
    exists []. repeat split; [simpl; lia | constructor].
  - destruct (subscription w && delivers crypto_changes c); [| split; assumption].
    split; [| exact Ht]. simpl.
    apply Forall_app. split; [exact Hq | repeat constructor].
  - simpl in Ha. destruct (inflight w) as [| q rest] eqn:Hi; [rewrite Hi; split; assumption |].
    inversion Hq as [| ? ? Hq1 Hq2]; subst.
    unfold bind. simpl. split.
    + rewrite fetchCryptos_resume_inflight. exact Hq2.
    + unfold table_ordered.
      match goal with
      | |- context [fetchCryptos_resume o ?w0] =>
          destruct (fetchCryptos_resume_cryptos o w0) as [Hc | (data & Hs & Hc)]
      end; rewrite Hc.
      * exact Ht.
      * apply (honoured_rows_ordered o data w Ha Hs).
  - destruct (mounted w); split; assumption.
  - split; [constructor | exact Ht].
  - pose proof (step_late_settled o w) as H. cbv zeta in H. unfold step in H.
    destruct H as (Hc & _ & _ & _ & _ & _ & Hi & _).
    unfold table_ordered. rewrite Hc, Hi. split; assumption.
Qed.

Lemma reachable_invariant (w : World) :
  reachable w -> only_top20_inflight w /\ table_ordered w.
Proof.
  induction 1 as [| w e Hr IH Ha].
  - split; [constructor |].
    exists []. repeat split; [simpl; lia | constructor].
  - apply step_preserves; assumption.
Qed.

(** C5.  A successful fetch whose answer honours the query leaves in
    [cryptos] at most 20 rows ordered by descending [market_cap]; and every
    reachable state has such a [cryptos], since it starts empty and only
    such answers replace it. *)
Theorem table_snapshot_ordered :
  (forall (o : settled) (data : value) (w : World),
     succeeded o data -> honours fetchCryptos_query o ->
     table_ordered (snd (fetchCryptos_resume o w)))
  /\ (forall w : World, reachable w -> table_ordered w)
  /\ table_ordered initial
  /\ order fetchCryptos_query = "market_cap"
  /\ ascending fetchCryptos_query = false
  /\ limit fetchCryptos_query = 20.
Proof.
  split; [| split; [| split; [| repeat split]]].
  - intros o data w Hs Hh. unfold table_ordered.
    rewrite (fetchCryptos_resume_succeeded o data w Hs). simpl.
    apply (honoured_rows_ordered o data w Hh Hs).
  - intros w Hr. apply (reachable_invariant w Hr).
  - apply (reachable_invariant initial reachable_initial).
Qed.

Lemma two_rows_honoured : honours fetchCryptos_query two_rows.
Proof.
  intros data (r & e & Hr & Hd & _).
  inversion Hr; subst r. simpl in Hd. inversion Hd; subst data.
  right. exists [bitcoin_row; ether_row].
  split; [reflexivity |]. split; [simpl; lia |].
  repeat constructor.
Qed.

Lemma two_rows_succeeded : succeeded two_rows (Arr [bitcoin_row; ether_row]).
Proof.
  exists (Obj [("data", Arr [bitcoin_row; ether_row]); ("error", Null)]), Null.
  repeat split; reflexivity.
Qed.

Lemma table_snapshot_ordered_witness :
  table_ordered the_table_rows
  /\ table_ordered (snd (fetchCryptos_resume two_rows initial)).
Proof.
  split.
  - apply (proj1 (proj2 table_snapshot_ordered)).
    change the_table_rows with (step (TableSettled two_rows) (step Mount initial)).
    apply reachable_step.
    + apply reachable_step; [apply reachable_initial | exact I].
    + exact two_rows_honoured.
  - exact (proj1 table_snapshot_ordered two_rows _ initial
             two_rows_succeeded two_rows_honoured).
Defined.

Lemma badge_shows_direction_and_magnitude_witness :
  @toFixed sample_host (PrimFloat.abs (-3.456)%float) 2
  = fixed_point (nearest 7782220156096217 (-51) 2) 2
  /\ is_nearest (nearest 7782220156096217 (-51) 2) 7782220156096217 (-51) 2.
Proof.
  pose proof (@badge_shows_direction_and_magnitude sample_host (-3.456)%float) as H.
  cbv zeta in H. destruct H as (_ & _ & _ & H & _).
  exact (H true 7782220156096217%positive (-51)%Z eq_refl eq_refl).
Defined.

(** ** Worked examples *)

(** [toFixed] rounds the exact binary value: 1.005 lies below the midpoint,
    0.125 lies on it and goes up. *)
Example toFixed_examples :
  @toFixed sample_host 1234.5%float 2 = "1234.50"
  /\ @toFixed sample_host 1.005%float 2 = "1.00"
  /\ @toFixed sample_host 0.125%float 2 = "0.13"
  /\ @toFixed sample_host 0.005%float 2 = "0.01"
  /\ @toFixed sample_host (-0.001)%float 2 = "-0.00"
  /\ @toFixed sample_host 2.5%float 0 = "3".
Proof. vm_compute. repeat split. Qed.

(** The order of the query is strict about the column: the same two rows the
    other way round are not in order. *)
Example ascending_caps_not_in_order :
  ~ Sorted (in_order fetchCryptos_query) [ether_row; bitcoin_row].
Proof.
  intros Hs. inversion Hs as [| ? ? _ Hhd]; subst.
  inversion Hhd as [| ? ? Hab]; subst.
  vm_compute in Hab. discriminate Hab.
Qed.

(** Cold start: the table answers with two rows while the feed is
    unreachable. *)
Example cold_start :
  let w0 := step Mount initial in
  let w1 := step (FeedSettled (NetworkError (TypeError "Failed to fetch"))) w0 in
  let w2 := step (TableSettled two_rows) w1 in
  loading w0 = true /\ cryptos w0 = Arr []
  /\ loading w2 = false /\ error w2 = Null
  /\ displayData w2 = Arr [bitcoin_row; ether_row]
  /\ @Home sample_host w0 = Normal (Dashboard Spinner).
Proof. cbv zeta. repeat split. Qed.

(** Live override: once the feed has answered, its records are shown and
    the table rows are not. *)
Example live_override :
  let w := step (FeedSettled (Responded feed_page)) the_table_rows in
  cryptos w = Arr [bitcoin_row; ether_row]
  /\ json feed_page = Normal (displayData w).
Proof. cbv zeta. repeat split. Qed.

(** A rate-limit answer is an object: it becomes the display list, and the
    table branch of [Home] then fails on [displayData.map]. *)
Example rate_limit_answer_breaks_table :
  let w := step (FeedSettled (Responded rate_limited)) the_table_rows in
  @Home sample_host w = Throw (TypeError "displayData.map is not a function").
Proof. cbv zeta. reflexivity. Qed.

(** ** Which event writes which cell *)

Lemma thrown_or_succeeded (o : settled) :
  (exists e, thrown_in_try o = Some e) \/ (exists data, succeeded o data).
Proof.
  destruct (thrown_in_try o) as [e |] eqn:Ht; [left; eauto | right].
  unfold thrown_in_try in Ht.
  destruct o as [r | reason]; [| discriminate].
  destruct (destructure r "data") as [d | x] eqn:Hd; [| discriminate].
  destruct (get r "error") as [y | y] eqn:He; [| discriminate].
  destruct (truthy y) eqn:Hy; [discriminate |].
  apply destructure_Normal_get in Hd.
  exists d, r, y. auto.
Qed.

Lemma fetchCryptos_resume_error (o : settled) (w : World) :
  thrown_in_try o = None -> error (snd (fetchCryptos_resume o w)) = error w.
Proof.
  intros Ht. destruct (thrown_or_succeeded o) as [[e He] | [data Hs]].
  - congruence.
  - rewrite (fetchCryptos_resume_succeeded o data w Hs). reflexivity.
Qed.


Lemma step_error_quiet (e : Event) (w : World) :
  quiet e -> error (step e w) = error w.
Proof.
  destruct e as [| c | o | f | | o]; simpl; intros Hq; try reflexivity.
  - destruct Hq.
  - destruct (subscription w && delivers crypto_changes c); reflexivity.
  - destruct (inflight w) as [| q rest]; [reflexivity |].
    unfold bind. simpl. rewrite (fetchCryptos_resume_error o _ Hq). reflexivity.
  - destruct (mounted w); reflexivity.
  - pose proof (step_late_settled o w) as H. cbv zeta in H. unfold step in H.
    destruct H as (_ & _ & He & _). exact He.
Qed.



(** ** The error panel over time *)

Lemma run_error_quiet (es : list Event) :
  Forall quiet es -> forall w, error (run es w) = error w.
Proof.
  induction 1 as [| e es He Hes IH]; intros w; simpl; [reflexivity |].
  rewrite IH. apply step_error_quiet, He.
Qed.

(** X2.  Once [error] holds a truthy message and for as long as the page
    stays mounted, [Home] returns the error panel with that message after
    every further sequence of table changes, feed responses, late answers
    and successful table answers: short of a remount, nothing but another
    failed table request takes the panel away. *)
Theorem error_panel_persists `{Host} (w : World) (es : list Event) :
  truthy (error w) = true ->
  Forall quiet es ->
  error (run es w) = error w
  /\ Home (run es w) = Normal (ErrorPanel (error w)).
Proof.
  intros Ht Hq. pose proof (run_error_quiet es Hq w) as He.
  split; [exact He |].
  unfold Home. rewrite He, Ht. reflexivity.
Qed.

Lemma error_panel_persists_witness :
  @Home sample_host
    (run [Changed a_change; TableSettled two_rows; FeedSettled (Responded feed_page)]
         (run [Mount; TableSettled table_missing] initial))
  = Normal (ErrorPanel (Str "relation does not exist")).
Proof.
  refine (proj2 (@error_panel_persists sample_host
                   (run [Mount; TableSettled table_missing] initial)
                   [Changed a_change; TableSettled two_rows; FeedSettled (Responded feed_page)]
                   eq_refl _)).
  repeat constructor.
Defined.

(** ** The display list is never missing *)

Lemma or_array_truthy (data : value) : truthy (JS.or data (Arr [])) = true.
Proof. unfold JS.or. destruct (truthy data) eqn:E; [exact E | reflexivity]. Qed.

Lemma step_cryptos_truthy (e : Event) (w : World) :
  truthy (cryptos w) = true -> truthy (cryptos (step e w)) = true.
Proof.
  intros Ht. destruct e as [| c | o | f | | o].
  - reflexivity.
  - simpl. destruct (subscription w && delivers crypto_changes c); exact Ht.
  - simpl. destruct (inflight w) as [| q rest]; [exact Ht |].
    unfold bind. simpl.
    match goal with
    | |- context [fetchCryptos_resume o ?w0] =>
        destruct (fetchCryptos_resume_cryptos o w0) as [E | (data & _ & E)]
    end; rewrite E; [exact Ht | apply or_array_truthy].
  - simpl. destruct (mounted w); exact Ht.
  - exact Ht.
  - pose proof (step_late_settled o w) as H. cbv zeta in H.
    rewrite (proj1 H). exact Ht.
Qed.

Lemma run_cryptos_truthy (es : list Event) :
  forall w, truthy (cryptos w) = true -> truthy (cryptos (run es w)) = true.
Proof.
  induction es as [| e es IH]; intros w Ht; simpl; [exact Ht |].
  apply IH, step_cryptos_truthy, Ht.
Qed.

Lemma truthy_has_length (v : value) :
  truthy v = true -> exists b, not_length v = Normal b.
Proof. destruct v; simpl; intros Ht; try discriminate; eauto. Qed.

(** X3.  Whatever the table service and the feed answer, and in whatever
    order the events arrive, [cryptos] and [displayData] are never
    [undefined], [null] or any other falsy value; so the test
    [!displayData.length] never throws. *)
Theorem displayData_never_missing (es : list Event) :
  truthy (cryptos (run es initial)) = true
  /\ truthy (displayData (run es initial)) = true
  /\ exists b, not_length (displayData (run es initial)) = Normal b.
Proof.
  assert (Hc : truthy (cryptos (run es initial)) = true)
    by (apply run_cryptos_truthy; reflexivity).
  assert (Hd : truthy (displayData (run es initial)) = true).
  { unfold displayData, JS.or.
    destruct (truthy (liveData (run es initial))) eqn:E; [exact E | exact Hc]. }
  split; [exact Hc |]. split; [exact Hd |].
  apply truthy_has_length, Hd.
Qed.

(** ** Feed answers that are no array *)

(** X4.  When [error] is unset and the feed has answered with a truthy value
    that is no array (an error object, a string, a number, [true]), [Home]
    never returns a table: it returns the loading indicator or throws
    "displayData.map is not a function"; once [loading] is false it throws. *)
Theorem non_array_answer_never_renders `{Host} (w : World) :
  truthy (error w) = false ->
  truthy (liveData w) = true ->
  (forall items, liveData w <> Arr items) ->
  (Home w = Normal (Dashboard Spinner)
   \/ Home w = Throw (TypeError "displayData.map is not a function"))
  /\ (loading w = false ->
      Home w = Throw (TypeError "displayData.map is not a function"))
  /\ (forall rows, Home w <> Normal (Dashboard (DataTable rows))).
Proof.
  intros He Hl Hna.
  assert (Hd : displayData w = liveData w) by (unfold displayData, JS.or; rewrite Hl; reflexivity).
  assert (Hcases : Home w = Normal (Dashboard Spinner) /\ loading w = true
                   \/ Home w = Throw (TypeError "displayData.map is not a function")).
  { unfold Home. rewrite He, Hd.
    destruct (liveData w) as [| | b | x | s | items | fs]; try discriminate Hl.
    - destruct (loading w); simpl; auto.
    - destruct (loading w); simpl; auto.
    - destruct (loading w); simpl; [| auto].
      destruct (Nat.eqb (String.length s) 0); simpl; auto.
    - destruct (Hna items eq_refl).
    - destruct (loading w); simpl; [| auto].
      destruct (negb (truthy _)); simpl; auto. }
  split; [| split].
  - destruct Hcases as [[E _] | E]; auto.
  - intros Hlo. destruct Hcases as [[_ E] | E]; [congruence | exact E].
  - intros rows. destruct Hcases as [[E _] | E]; rewrite E; discriminate.
Qed.

Lemma non_array_answer_never_renders_witness :
  @Home sample_host (step (FeedSettled (Responded rate_limited)) the_table_rows)
  = Throw (TypeError "displayData.map is not a function").
Proof.
  refine (proj1 (proj2 (@non_array_answer_never_renders sample_host
            (step (FeedSettled (Responded rate_limited)) the_table_rows)
            eq_refl eq_refl _)) eq_refl).
  intros items. discriminate.
Defined.

(** ** Records that are null *)

Lemma row_of_nullish `{Host} (crypto : value) (index : nat) :
  nullish crypto = true ->
  row crypto index = Throw (read_error crypto "current_price").
Proof. destruct crypto; intros Hn; try discriminate Hn; reflexivity. Qed.

Lemma rows_from_nullish `{Host} (items : list value) (v : value) :
  List.find nullish items = Some v ->
  forall index, rows_from index items = Throw (read_error v "current_price").
Proof.
  induction items as [| crypto rest IH]; intros Hf index; simpl in *; [discriminate |].
  destruct (nullish crypto) eqn:Hc.
  - inversion Hf; subst v. rewrite (row_of_nullish crypto index Hc). reflexivity.
  - destruct (row_total crypto index Hc) as [r Hr].
    rewrite Hr. simpl. rewrite (IH Hf (S index)). reflexivity.
Qed.

Lemma find_nullish_exists (items : list value) :
  forallb (fun v => negb (nullish v)) items = false ->
  exists v, List.find nullish items = Some v.
Proof.
  induction items as [| x rest IH]; simpl; [discriminate |].
  destruct (nullish x); simpl; [eauto | exact IH].
Qed.

Lemma find_nullish_null (items : list value) (v : value) :
  List.find nullish items = Some v ->
  (forall x, In x items -> x <> Undefined) ->
  v = Null.
Proof.
  intros Hf Hno. destruct (List.find_some _ _ Hf) as [Hin Hn].
  destruct v; try discriminate Hn; [destruct (Hno Undefined Hin); reflexivity | reflexivity].
Qed.

(** X5.  The table is all or nothing: for a display list that is an array,
    the rows are produced exactly when no element is [null] or [undefined];
    otherwise [Home] throws the TypeError of reading [current_price] of the
    first such element and returns no partial table.  For a list parsed from
    JSON, which holds no [undefined], that is the TypeError
    "Cannot read properties of null (reading 'current_price')". *)
Theorem null_record_breaks_table `{Host} (w : World) (items : list value) :
  truthy (error w) = false ->
  displayData w = Arr items ->
  ((exists rows, rows_from 0 items = Normal rows)
   <-> forallb (fun v => negb (nullish v)) items = true)
  /\ (forall v, List.find nullish items = Some v ->
       Home w = Throw (read_error v "current_price"))
  /\ (In Null items ->
      (forall x, In x items -> x <> Undefined) ->
      Home w
      = Throw (TypeError "Cannot read properties of null (reading 'current_price')")).
Proof.
  intros He Hd.
  assert (Hthrow : forall v, List.find nullish items = Some v ->
                     Home w = Throw (read_error v "current_price")).
  { intros v Hf. unfold Home. rewrite He, Hd.
    destruct items as [| crypto rest]; [discriminate Hf |].
    assert (Hn : (if loading w then not_length (Arr (crypto :: rest)) else Normal false)
                 = Normal false) by (destruct (loading w); reflexivity).
    rewrite Hn. unfold and_then at 1. unfold map_rows.
    rewrite (rows_from_nullish (crypto :: rest) v Hf 0). reflexivity. }
  split; [split | split; [exact Hthrow |]].
  - intros [rows Hr].
    destruct (forallb (fun v => negb (nullish v)) items) eqn:Hall; [reflexivity |].
    destruct (find_nullish_exists items Hall) as [v Hf].
    rewrite (rows_from_nullish items v Hf 0) in Hr. discriminate Hr.
  - intros Hall. destruct (rows_from_total items Hall 0) as (rows & Hr & _). eauto.
  - intros Hin Hno.
    destruct (List.find nullish items) as [v |] eqn:Hf.
    + rewrite (Hthrow v eq_refl).
      rewrite (find_nullish_null items v Hf Hno). reflexivity.
    + pose proof (List.find_none _ _ Hf Null Hin) as Hn. discriminate Hn.
Qed.

Lemma null_record_breaks_table_witness :
  @Home sample_host (step (FeedSettled (Responded page_with_null)) the_table_rows)
  = Throw (TypeError "Cannot read properties of null (reading 'current_price')").
Proof.
  refine (proj2 (proj2 (@null_record_breaks_table sample_host
                          (step (FeedSettled (Responded page_with_null)) the_table_rows)
                          [bitcoin_row; Null] eq_refl eq_refl)) _ _).
  - right. left. reflexivity.
  - intros x [<- | [<- | []]]; discriminate.
Defined.

(** ** What a returned table contains *)

(** X6.  Whenever [Home] returns a table, [error] is unset, the display list
    is an array, and the table has exactly one row per record, in the order
    of the list and numbered 1, 2, ..., each row showing the formatted
    resolved price, the badge of the resolved change and the formatted
    resolved market cap of its own record; and it is not the case that
    [loading] is true with an empty list. *)
Theorem returned_table_rows `{Host} (w : World) (rows : list Row) :
  Home w = Normal (Dashboard (DataTable rows)) ->
  truthy (error w) = false
  /\ exists items,
       displayData w = Arr items
       /\ List.length rows = List.length items
       /\ List.map rank rows = List.seq 1 (List.length items)
       /\ Forall2 shows items rows
       /\ ~ (loading w = true /\ items = []).
Proof.
  unfold Home. destruct (truthy (error w)); [discriminate |].
  cbv zeta. intros Hh. split; [reflexivity |].
  destruct (if loading w then not_length (displayData w) else Normal false)
    as [[|] | x] eqn:Hsp; simpl in Hh; try discriminate Hh.
  destruct (displayData w) as [| | b | x | s | items | fs];
    simpl in Hh; try discriminate Hh.
  destruct (rows_from 0 items) as [rs | x] eqn:Hr; simpl in Hh; [| discriminate Hh].
  inversion Hh; subst rs.
  exists items.
  destruct (rows_from_inversion items 0 rows Hr) as (Hlen & Hrank & Hshow).
  repeat split; try assumption.
  intros [Hl ->]. rewrite Hl in Hsp. simpl in Hsp. discriminate Hsp.
Qed.

Lemma returned_table_rows_witness :
  exists items,
    displayData the_table_rows = Arr items
    /\ List.length
         [{| key := Num 1%float; rank := 1; image := NoImg Undefined;
             name := Str "Bitcoin"; symbol := Str "btc";
             price_cell := EmptyString;
             change_cell := @badge sample_host (Num (-1.5)%float);
             marketCap_cell := "$" |};
          {| key := Num 2%float; rank := 2; image := NoImg Undefined;
             name := Str "Ethereum"; symbol := Str "eth";
             price_cell := EmptyString;
             change_cell := @badge sample_host (Num 2.25%float);
             marketCap_cell := "$" |}]
       = List.length items.
Proof.
  destruct (proj2 (@returned_table_rows sample_host the_table_rows _ eq_refl))
    as (items & Hd & Hlen & _).
  exists items. split; [exact Hd | exact Hlen].
Defined.

(** ** Bursts of changes and overlapping requests *)

Lemma step_changed_delivered (w : World) (c : Change) :
  subscription w = true -> delivers crypto_changes c = true ->
  subscription (step (Changed c) w) = true
  /\ inflight (step (Changed c) w) = (inflight w ++ [fetchCryptos_query])%list
  /\ cryptos (step (Changed c) w) = cryptos w
  /\ loading (step (Changed c) w) = true.
Proof.
  intros Hs Hd. unfold step. rewrite Hs, Hd. simpl. repeat split. exact Hs.
Qed.

(** X7.  Changes are not coalesced: while the subscription is open, a burst
    of [n] delivered changes sends [n] further copies of the same query, one
    per change, leaves [cryptos] untouched and, if [n] is not zero, leaves
    [loading] true. *)
Theorem changes_are_not_coalesced (cs : list Change) :
  forall w : World,
    subscription w = true ->
    Forall (fun c => delivers crypto_changes c = true) cs ->
    let w' := run (List.map Changed cs) w in
    inflight w' = (inflight w ++ List.repeat fetchCryptos_query (List.length cs))%list
    /\ cryptos w' = cryptos w
    /\ subscription w' = true
    /\ (cs <> [] -> loading w' = true).
Proof.
  induction cs as [| c cs IH]; intros w Hs Hall; cbv zeta.
  - simpl. rewrite app_nil_r.
    repeat split; [exact Hs | intros Hne; destruct Hne; reflexivity].
  - change (run (List.map Changed (c :: cs)) w)
      with (run (List.map Changed cs) (step (Changed c) w)).
    change (List.repeat fetchCryptos_query (List.length (c :: cs)))
      with ([fetchCryptos_query] ++ List.repeat fetchCryptos_query (List.length cs))%list.
    inversion Hall as [| ? ? Hc Hcs]; subst.
    destruct (step_changed_delivered w c Hs Hc) as (Hs1 & Hi1 & Hc1 & Hl1).
    destruct (IH (step (Changed c) w) Hs1 Hcs) as (Hi & Hcr & Hsub & Hlo).
    cbv zeta in Hi, Hcr, Hsub, Hlo.
    split; [| split; [| split]].
    + rewrite Hi, Hi1, <- app_assoc. reflexivity.
    + rewrite Hcr. exact Hc1.
    + exact Hsub.
    + intros _. destruct cs as [| c' cs']; [exact Hl1 | apply Hlo; discriminate].
Qed.

Lemma changes_are_not_coalesced_witness :
  inflight (run [Changed a_change; Changed a_change; Changed a_change] the_table_rows)
  = [fetchCryptos_query; fetchCryptos_query; fetchCryptos_query].
Proof.
  refine (proj1 (changes_are_not_coalesced [a_change; a_change; a_change]
                   the_table_rows eq_refl _)).
  repeat constructor.
Defined.

Lemma step_table_settled (w : World) (o : settled) (q : Query) (rest : list Query) :
  inflight w = q :: rest ->
  step (TableSettled o) w = snd (fetchCryptos_resume o (snd (take_inflight rest w))).
Proof. intros Hi. unfold step. rewrite Hi. reflexivity. Qed.

(** X8.  Requests overlap freely.  With two requests in flight, the first
    answer to arrive already sets [loading] to false although the second is
    still in flight; and when the second answer is a success its rows are
    the ones kept, whatever the first answer was. *)
Theorem overlapping_requests (w : World) (o1 o2 : settled)
        (q1 q2 : Query) (rest : list Query) (data2 : value) :
  inflight w = q1 :: q2 :: rest ->
  succeeded o2 data2 ->
  let w1 := step (TableSettled o1) w in
  let w2 := step (TableSettled o2) w1 in
  loading w1 = false
  /\ inflight w1 = q2 :: rest
  /\ cryptos w2 = JS.or data2 (Arr [])
  /\ inflight w2 = rest.
Proof.
  intros Hi Hs. cbv zeta.
  rewrite (step_table_settled w o1 q1 (q2 :: rest) Hi).
  set (w1 := snd (fetchCryptos_resume o1 (snd (take_inflight (q2 :: rest) w)))).
  assert (H1 : inflight w1 = q2 :: rest).
  { unfold w1. rewrite fetchCryptos_resume_inflight. reflexivity. }
  split; [unfold w1; apply fetchCryptos_resume_loading |].
  split; [exact H1 |].
  rewrite (step_table_settled w1 o2 q2 rest H1).
  rewrite (fetchCryptos_resume_succeeded o2 data2 _ Hs). split; reflexivity.
Qed.

Lemma overlapping_requests_witness :
  let w := run [Mount; Changed a_change] initial in
  loading (step (TableSettled table_missing) w) = false
  /\ inflight (step (TableSettled table_missing) w) = [fetchCryptos_query]
  /\ cryptos (step (TableSettled two_rows) (step (TableSettled table_missing) w))
     = Arr [bitcoin_row; ether_row].
Proof.
  cbv zeta.
  pose proof (overlapping_requests (run [Mount; Changed a_change] initial)
                table_missing two_rows fetchCryptos_query fetchCryptos_query []
                (Arr [bitcoin_row; ether_row]) eq_refl two_rows_succeeded) as H.
  cbv zeta in H. destruct H as (H1 & H2 & H3 & _).
  split; [exact H1 |]. split; [exact H2 | exact H3].
Defined.

(** ** Failures without a message *)

(** X9.  A failure whose thrown value has no truthy [message] (an error
    object without one, or with the empty string) leaves [error] falsy: it
    replaces whatever message was shown before, and [Home] does not return
    the error panel afterwards. *)
Theorem failure_without_message_shows_no_panel `{Host}
        (o : settled) (e message : value) (w : World) :
  thrown_in_try o = Some e ->
  get e "message" = Normal message ->
  truthy message = false ->
  let w' := snd (fetchCryptos_resume o w) in
  error w' = message
  /\ forall v, Home w' <> Normal (ErrorPanel v).
Proof.
  intros Ht Hm Hf. cbv zeta.
  rewrite (fetchCryptos_resume_failed o e message w Ht Hm).
  split; [reflexivity |].
  intros v. unfold Home. simpl. rewrite Hf.
  match goal with
  | |- and_then ?c _ <> _ => destruct c as [[|] | x]; simpl; try discriminate
  end.
  all: match goal with
       | |- and_then ?c _ <> _ => destruct c; simpl; discriminate
       end.
Qed.

Lemma failure_without_message_shows_no_panel_witness :
  let w := run [Mount; TableSettled table_missing; Changed a_change] initial in
  error w = Str "relation does not exist"
  /\ error (snd (fetchCryptos_resume unexplained_failure w)) = Undefined.
Proof.
  cbv zeta. split; [reflexivity |].
  exact (proj1 (@failure_without_message_shows_no_panel sample_host
                  unexplained_failure (Obj [("code", Str "PGRST301")]) Undefined
                  (run [Mount; TableSettled table_missing; Changed a_change] initial)
                  eq_refl eq_refl eq_refl)).
Defined.

(** ** Badges of small and of missing changes *)

(** X10.  A record whose two change fields are missing or falsy ([null],
    [0], the empty string) is shown as unchanged and rising: the up arrow,
    the green classes and the text "↑ 0.00%". *)
Theorem missing_change_badge `{Host} (fs : list (string * value)) (index : nat) (r : Row) :
  truthy (field "price_change_percentage_24h" fs) = false ->
  truthy (field "change_24h" fs) = false ->
  row (Obj fs) index = Normal r ->
  change (Obj fs) = Normal (Num 0)
  /\ change_cell r
     = {| arrow := "↑";
          className := badge_base ++ "bg-green-500/20 text-green-400";
          text := "↑ 0.00%" |}.
Proof.
  intros H1 H2 Hr.
  assert (Hc : change (Obj fs) = Normal (Num 0)).
  { unfold change. rewrite !get_field, !or_else_Normal, H1, H2. reflexivity. }
  split; [exact Hc |].
  destruct (row_cells (Obj fs) index r Hr) as (p & c & m & _ & Hc' & _ & _ & Hb & _).
  rewrite Hc in Hc'. inversion Hc'; subst c. rewrite Hb. reflexivity.
Qed.

Lemma missing_change_badge_witness :
  exists r, @row sample_host (Obj [("name", Str "Dogecoin"); ("change_24h", Null)]) 4 = Normal r
            /\ text (change_cell r) = "↑ 0.00%".
Proof.
  eexists. split; [reflexivity |].
  exact (f_equal text
           (proj2 (@missing_change_badge sample_host
                     [("name", Str "Dogecoin"); ("change_24h", Null)] 4 _
                     eq_refl eq_refl eq_refl))).
Defined.

(** X11.  The arrow follows the sign of the unrounded change: every negative
    change [- m * 2^e] of magnitude below 0.005 gets the down arrow and the
    red classes although its text reads "↓ 0.00%". *)
Theorem small_loss_badge `{Host} (x : float) (m : positive) (e : Z) :
  Prim2SF x = S754_finite true m e ->
  (200 * Z.pos m < 2 ^ (- e))%Z ->
  badge (Num x)
  = {| arrow := "↓";
       className := badge_base ++ "bg-red-500/20 text-red-400";
       text := "↓ 0.00%" |}.
Proof.
  intros Hx Hlt.
  assert (He : (e < 0)%Z).
  { destruct (Z.lt_trichotomy e 0) as [Hn | [-> | Hp]]; [exact Hn | simpl in Hlt; lia |].
    rewrite Z.pow_neg_r in Hlt by lia. lia. }
  assert (Hd : (0 < 2 ^ (- e))%Z) by (apply Z.pow_pos_nonneg; lia).
  assert (Hle : PrimFloat.leb PrimFloat.zero x = false).
  { rewrite leb_spec, Hx. reflexivity. }
  assert (Hbig : ge_1e21 m e = false).
  { unfold ge_1e21. destruct (0 <=? e)%Z eqn:E; [apply Z.leb_le in E; lia |].
    apply Z.leb_gt. nia. }
  assert (Hn : nearest m e 2 = 0%Z).
  { unfold nearest. destruct (0 <=? e)%Z eqn:E; [apply Z.leb_le in E; lia |].
    change (10 ^ Z.of_nat 2)%Z with 100%Z. apply Z.div_small. lia. }
  unfold badge, isPositive, ge_zero, Math_abs, ToNumber.
  rewrite Hle, toFixed_abs, Hx, Hbig, Hn. reflexivity.
Qed.

Lemma small_loss_badge_witness :
  text (@badge sample_host (Num (-0.001)%float)) = "↓ 0.00%".
Proof.
  exact (f_equal text
           (@small_loss_badge sample_host (-0.001)%float 4611686018427388%positive (-62)%Z
              eq_refl eq_refl)).
Defined.

(** ** The shape of the badge text *)

Lemma length_append (a b : string) :
  String.length (a ++ b) = String.length a + String.length b.
Proof. induction a as [| c a IH]; simpl; [reflexivity | rewrite IH; reflexivity]. Qed.

Lemma string_append_assoc (a b c : string) : (a ++ b) ++ c = a ++ (b ++ c).
Proof. induction a as [| x a IH]; simpl; [reflexivity | rewrite IH; reflexivity]. Qed.

Lemma length_zeros (k : nat) : String.length (zeros k) = k.
Proof. induction k as [| k IH]; simpl; [reflexivity | rewrite IH; reflexivity]. Qed.

Lemma length_substring (s : string) :
  forall i n, i + n <= String.length s -> String.length (String.substring i n s) = n.
Proof.
  induction s as [| c s IH]; intros i n Hle; simpl in Hle.
  - assert (i = 0) by lia. assert (n = 0) by lia. subst. reflexivity.
  - destruct i as [| i]; simpl.
    + destruct n as [| n]; simpl; [reflexivity |]. rewrite IH by lia. reflexivity.
    + apply IH. lia.
Qed.

Lemma all_digits_append (a b : string) :
  all_digits (a ++ b) = all_digits a && all_digits b.
Proof.
  induction a as [| c a IH]; simpl; [reflexivity |].
  rewrite IH, andb_assoc. reflexivity.
Qed.

Lemma all_digits_zeros (k : nat) : all_digits (zeros k) = true.
Proof. induction k as [| k IH]; simpl; [reflexivity | exact IH]. Qed.

Lemma all_digits_substring (s : string) :
  all_digits s = true -> forall i n, all_digits (String.substring i n s) = true.
Proof.
  induction s as [| c s IH]; intros Hs i n.
  - destruct i, n; reflexivity.
  - simpl in Hs. apply andb_true_iff in Hs. destruct Hs as [Hc Hs].
    destruct i as [| i]; simpl.
    + destruct n as [| n]; simpl; [reflexivity |].
      rewrite Hc. simpl. apply IH, Hs.
    + apply IH, Hs.
Qed.

Lemma all_digits_of_uint (d : Decimal.uint) :
  all_digits (NilEmpty.string_of_uint d) = true.
Proof. induction d; simpl; try exact IHd; reflexivity. Qed.

Lemma digits_spec (n : Z) :
  all_digits (digits n) = true /\ 1 <= String.length (digits n).
Proof.
  unfold digits, NilZero.string_of_uint.
  destruct (N.to_uint (Z.to_N n)) as [| d | d | d | d | d | d | d | d | d | d] eqn:E;
    try (split; [| simpl; lia];
         match goal with
         | |- all_digits (NilEmpty.string_of_uint ?u) = true => apply (all_digits_of_uint u)
         end).
  split; [reflexivity | simpl; lia].
Qed.

Lemma fixed_point_shape (n : Z) (f : nat) :
  f <> 0 ->
  exists int frac,
    fixed_point n f = int ++ "." ++ frac
    /\ String.length frac = f /\ 1 <= String.length int
    /\ all_digits int = true /\ all_digits frac = true.
Proof.
  intros Hf. destruct (digits_spec n) as [Hdig Hlen].
  unfold fixed_point. destruct f as [| f']; [destruct Hf; reflexivity |].
  set (f := S f') in *. cbv zeta.
  set (m := if Nat.leb (String.length (digits n)) f
            then zeros (f + 1 - String.length (digits n)) ++ digits n
            else digits n).
  assert (Hm : all_digits m = true /\ f + 1 <= String.length m).
  { unfold m. destruct (Nat.leb (String.length (digits n)) f) eqn:E.
    - apply Nat.leb_le in E. split.
      + rewrite all_digits_append, all_digits_zeros. exact Hdig.
      + rewrite length_append, length_zeros. lia.
    - apply Nat.leb_gt in E. split; [exact Hdig | lia]. }
  destruct Hm as [Hmd Hml].
  exists (String.substring 0 (String.length m - f) m),
         (String.substring (String.length m - f) f m).
  split; [reflexivity |]. split; [apply length_substring; lia |].
  split; [rewrite length_substring by lia; lia |].
  split; apply all_digits_substring, Hmd.
Qed.

(** X12.  For every finite change below [10^21] in magnitude, zero
    included, the badge text is the arrow, a space, one or more decimal
    digits, a point, exactly two decimal digits and a percent sign; it never
    carries a minus sign. *)
Theorem badge_text_shape `{Host} (x : float) :
  match Prim2SF x with
  | S754_zero _ => True
  | S754_finite _ m e => ge_1e21 m e = false
  | _ => False
  end ->
  exists int frac,
    text (badge (Num x)) = badge_text (arrow (badge (Num x))) int frac
    /\ String.length frac = 2 /\ 1 <= String.length int
    /\ all_digits int = true /\ all_digits frac = true.
Proof.
  intros Hx.
  assert (Hfix : exists n, toFixed (PrimFloat.abs x) 2 = fixed_point n 2).
  { rewrite toFixed_abs.
    destruct (Prim2SF x) as [s | s | | s m e]; [| destruct Hx | destruct Hx |].
    - exists 0%Z. reflexivity.
    - rewrite Hx. exists (nearest m e 2). reflexivity. }
  destruct Hfix as [n Hn].
  destruct (fixed_point_shape n 2 ltac:(discriminate)) as (int & frac & Hfp & H1 & H2 & H3 & H4).
  exists int, frac. split; [| auto].
  unfold badge, badge_text, Math_abs, ToNumber. simpl.
  rewrite Hn, Hfp. rewrite !string_append_assoc. reflexivity.
Qed.

Lemma badge_text_shape_witness :
  exists int frac,
    text (@badge sample_host (Num 64000.126%float))
    = badge_text (arrow (@badge sample_host (Num 64000.126%float))) int frac
    /\ String.length frac = 2 /\ 1 <= String.length int
    /\ all_digits int = true /\ all_digits frac = true.
Proof.
  apply (@badge_text_shape sample_host 64000.126%float). vm_compute. reflexivity.
Defined.

(** ** After the unmount *)

(** X13.  After the unmount the page sends nothing any more: whatever
    changes, answers and feed responses follow, as long as the page is not
    mounted again the subscription stays closed and no request is added to
    those in flight, orphans included. *)
Theorem unmounted_sends_nothing (w : World) (es : list Event) :
  Forall (fun e => e <> Mount) es ->
  subscription (run es (step Unmount w)) = false
  /\ List.length (inflight (run es (step Unmount w))) <= List.length (inflight w)
  /\ List.length (inflight (run es (step Unmount w)))
     + List.length (orphans (run es (step Unmount w)))
     <= List.length (inflight w) + List.length (orphans w).
Proof.
  intros Hes.
  destruct (run_while_unmounted es Hes (step Unmount w) eq_refl eq_refl eq_refl)
    as ((_ & Hs & Hi) & _ & _ & _ & _ & Ho).
  rewrite Hi. simpl in Ho. rewrite length_app in Ho. simpl.
  split; [exact Hs |]. split; lia.
Qed.

Lemma unmounted_sends_nothing_witness :
  subscription (run [Changed a_change; TableSettled two_rows; Changed a_change]
                    (step Unmount (step Mount initial))) = false
  /\ List.length (inflight (run [Changed a_change; TableSettled two_rows; Changed a_change]
                                (step Unmount (step Mount initial))))
     <= List.length (inflight (step Mount initial)).
Proof.
  assert (Hes : Forall (fun e => e <> Mount)
                  [Changed a_change; TableSettled two_rows; Changed a_change])
    by (repeat constructor; discriminate).
  destruct (unmounted_sends_nothing (step Mount initial) _ Hes) as (H1 & H2 & _).
  split; [exact H1 | exact H2].
Defined.

(** ** The size of the table *)

Lemma Home_table_inversion `{Host} (w : World) (rows : list Row) :
  Home w = Normal (Dashboard (DataTable rows)) ->
  exists items, displayData w = Arr items /\ List.length rows = List.length items.
Proof.
  unfold Home. destruct (truthy (error w)); [discriminate |].
  cbv zeta. intros Hh.
  destruct (if loading w then not_length (displayData w) else Normal false)
    as [[|] | x] eqn:Hsp; simpl in Hh; try discriminate Hh.
  destruct (displayData w) as [| | b | x | s | items | fs];
    simpl in Hh; try discriminate Hh.
  destruct (rows_from 0 items) as [rs | x] eqn:Hr; simpl in Hh; [| discriminate Hh].
  inversion Hh; subst rs.
  exists items. split; [reflexivity |].
  apply (rows_from_inversion items 0 rows Hr).
Qed.

(** X14.  As long as the table service honours the query and the feed has
    delivered no data, the page never shows more than 20 rows: in every
    reachable state with [liveData] unset, a table returned by [Home] has at
    most 20 rows. *)
Theorem table_rows_at_most_20 `{Host} (w : World) (rows : list Row) :
  reachable w ->
  truthy (liveData w) = false ->
  Home w = Normal (Dashboard (DataTable rows)) ->
  List.length rows <= 20.
Proof.
  intros Hr Hl Hh.
  destruct (reachable_invariant w Hr) as [_ (trows & Hc & Hlen & _)].
  destruct (Home_table_inversion w rows Hh) as (items & Hd & Hrows).
  unfold displayData, JS.or in Hd. rewrite Hl, Hc in Hd.
  inversion Hd; subst items. lia.
Qed.

Lemma table_rows_at_most_20_witness :
  forallb (fun r => Nat.leb (rank r) 20)
    [{| key := Num 1%float; rank := 1; image := NoImg Undefined;
        name := Str "Bitcoin"; symbol := Str "btc";
        price_cell := EmptyString;
        change_cell := @badge sample_host (Num (-1.5)%float);
        marketCap_cell := "$" |};
     {| key := Num 2%float; rank := 2; image := NoImg Undefined;
        name := Str "Ethereum"; symbol := Str "eth";
        price_cell := EmptyString;
        change_cell := @badge sample_host (Num 2.25%float);
        marketCap_cell := "$" |}] = true
  /\ 2 <= 20.
Proof.
  split; [reflexivity |].
  refine (@table_rows_at_most_20 sample_host the_table_rows
            [{| key := Num 1%float; rank := 1; image := NoImg Undefined;
                name := Str "Bitcoin"; symbol := Str "btc";
                price_cell := EmptyString;
                change_cell := @badge sample_host (Num (-1.5)%float);
                marketCap_cell := "$" |};
             {| key := Num 2%float; rank := 2; image := NoImg Undefined;
                name := Str "Ethereum"; symbol := Str "eth";
                price_cell := EmptyString;
                change_cell := @badge sample_host (Num 2.25%float);
                marketCap_cell := "$" |}] _ eq_refl eq_refl).
  change the_table_rows with (step (TableSettled two_rows) (step Mount initial)).
  apply reachable_step.
  - apply reachable_step; [apply reachable_initial | exact I].
  - exact two_rows_honoured.
Defined.

(** ** Placeholders *)

Lemma row_name_symbol_image `{Host} (crypto : value) (index : nat) (r : Row) :
  row crypto index = Normal r ->
  exists n s i,
    get crypto "name" = Normal n /\ get crypto "symbol" = Normal s
    /\ get crypto "image" = Normal i
    /\ name r = (if truthy n then n else Str "Unknown")
    /\ symbol r = (if truthy s then s else Str "-")
    /\ image r = (if truthy i then Img i n else NoImg i)
    /\ truthy (name r) = true /\ truthy (symbol r) = true.
Proof.
  unfold row.
  destruct (price crypto) as [p | ?]; simpl; [| discriminate].
  destruct (change crypto) as [c | ?]; simpl; [| discriminate].
  destruct (marketCap crypto) as [m | ?]; simpl; [| discriminate].
  destruct (or_else (get crypto "id") _) as [k | ?]; simpl; [| discriminate].
  destruct (get crypto "image") as [i | ?]; simpl; [| discriminate].
  destruct (get crypto "name") as [n | ?]; simpl; [| discriminate].
  rewrite ?or_else_Normal.
  destruct (truthy n) eqn:Hn; simpl;
    (destruct (get crypto "symbol") as [s | ?]; simpl; [| discriminate]);
    rewrite ?or_else_Normal;
    destruct (truthy s) eqn:Hs; simpl;
    intros E; inversion E; subst r; simpl;
    exists n, s, i; rewrite ?Hn, ?Hs; repeat split; assumption || reflexivity.
Qed.

Lemma placeholder_is_text (v fallback : value) (u : string) :
  fallback = Str u -> u <> EmptyString ->
  string_or_absent v ->
  exists t, (if truthy v then v else fallback) = Str t /\ t <> EmptyString.
Proof.
  intros -> Hu [Ha | [t ->]].
  - rewrite (absent_falsy v Ha). eauto.
  - simpl. destruct (String.eqb t EmptyString) eqn:E; simpl; [eauto |].
    exists t. split; [reflexivity |]. apply String.eqb_neq, E.
Qed.

(** X15.  Each row shows the record's own [name] and [symbol] when these
    are truthy and the placeholders "Unknown" and "-" otherwise, and renders
    the image exactly when the record's [image] is truthy, with the raw
    [name] as its alternative text.  For a record whose [name] and [symbol]
    are strings or absent, the two cells are therefore non-empty strings. *)
Theorem row_placeholders `{Host} (crypto : value) (index : nat) (r : Row) :
  row crypto index = Normal r ->
  exists n s i,
    get crypto "name" = Normal n /\ get crypto "symbol" = Normal s
    /\ get crypto "image" = Normal i
    /\ name r = (if truthy n then n else Str "Unknown")
    /\ symbol r = (if truthy s then s else Str "-")
    /\ image r = (if truthy i then Img i n else NoImg i)
    /\ truthy (name r) = true /\ truthy (symbol r) = true
    /\ (string_or_absent n -> exists t, name r = Str t /\ t <> EmptyString)
    /\ (string_or_absent s -> exists t, symbol r = Str t /\ t <> EmptyString).
Proof.
  intros Hr.
  destruct (row_name_symbol_image crypto index r Hr)
    as (n & s & i & Hn & Hs & Hi & Hname & Hsym & Himg & Htn & Hts).
  exists n, s, i.
  split; [exact Hn |]. split; [exact Hs |]. split; [exact Hi |].
  split; [exact Hname |]. split; [exact Hsym |]. split; [exact Himg |].
  split; [exact Htn |]. split; [exact Hts |]. split.
  - intros Hsa. rewrite Hname.
    apply (placeholder_is_text n (Str "Unknown") "Unknown" eq_refl); [discriminate | exact Hsa].
  - intros Hsa. rewrite Hsym.
    apply (placeholder_is_text s (Str "-") "-" eq_refl); [discriminate | exact Hsa].
Qed.

Lemma row_placeholders_witness :
  exists r, @row sample_host (Obj [("id", Num 7%float); ("name", Str EmptyString)]) 0 = Normal r
            /\ name r = Str "Unknown" /\ symbol r = Str "-".
Proof.
  eexists. split; [reflexivity |].
  destruct (@row_placeholders sample_host
              (Obj [("id", Num 7%float); ("name", Str EmptyString)]) 0 _ eq_refl)
    as (n & s & i & Hn & Hs & _ & Hname & Hsym & _).
  inversion Hn; subst n. inversion Hs; subst s.
  split; [exact Hname | exact Hsym].
Defined.
